(** * DSimpleListView and DPageIndicator: a shallow embedding

    The definitions below follow [src/widgets/dsimplelistview.cpp] and
    [src/widgets/dpageindicator.cpp] function by function and keep their
    names.  Conventions of the embedding:

    - a C++ [int] is a [Z]; signed overflow is undefined behaviour in C++ and
      the development speaks about executions that stay clear of it;
    - [/] on [int] is truncated division ([Z.quot]); a zero divisor, an
      out-of-range [operator[]] and a [double] that has no [int] value are
      undefined behaviour: the embedding returns [None] there;
    - a [double] is a binary64 float ([PrimFloat]);
    - a [DSimpleListItem*] is an address ([nat]), [0] being the null pointer;
      a [QList] is a [list];
    - pointer coordinates are whole pixels, as Qt 5 hands them over (Qt 6
      hands over [double]s, with the same results on whole pixels);
    - painting, signals and [repaint()] leave the modelled state alone and
      are dropped, except for the rows [paintEvent] hands to the items; so
      is the hover state ([lastHoverItem], [drawHoverItem], [mouseHoverItem],
      [mouseAtScrollArea], [titleHoverColumn]), which no modelled function
      reads. *)

From Stdlib Require Import ZArith Floats.
From stdpp Require Import base tactics option list sorting strings.

Open Scope Z_scope.

(** ** Machine arithmetic *)

(** [a / b] on [int]. *)
Definition idiv (a b : Z) : option Z :=
  if decide (b = 0) then None else Some (Z.quot a b).

Definition int_min : Z := - 2 ^ 31.
Definition int_max : Z := 2 ^ 31 - 1.

Definition double : Set := float.

(** Promotion of an [int] to [double]; exact below [2 ^ 53]. *)
Definition of_int (z : Z) : double :=
  if z <? 0 then PrimFloat.opp (PrimFloat.of_uint63 (Uint63.of_Z (- z)))
  else PrimFloat.of_uint63 (Uint63.of_Z z).

(** Conversion of a [double] to [int]: the fraction is discarded; undefined
    when the truncated value is not an [int] (and for infinities and NaN). *)
Definition to_int (f : double) : option Z :=
  match Prim2SF f with
  | S754_zero _ => Some 0
  | S754_finite sg m e =>
      let mag := if 0 <=? e then Z.pos m * 2 ^ e else Z.pos m / 2 ^ (- e) in
      let v := if sg then - mag else mag in
      if decide (int_min <= v <= int_max) then Some v else None
  | _ => None
  end.

(** ** Items and lists *)

Definition ItemPtr : Set := nat.
Definition nullptr : ItemPtr := 0%nat.

Definition SortAlgorithm : Set := ItemPtr -> ItemPtr -> bool -> bool.
Definition SearchAlgorithm : Set := ItemPtr -> string -> bool.

(** [QList::indexOf]: position of the first occurrence, [-1] when absent. *)
Fixpoint indexOf_from (i : Z) (x : ItemPtr) (l : list ItemPtr) : Z :=
  match l with
  | [] => -1
  | y :: l' => if decide (y = x) then i else indexOf_from (i + 1) x l'
  end.
Definition indexOf (l : list ItemPtr) (x : ItemPtr) : Z := indexOf_from 0 x l.

(** [QList::contains]. *)
Definition contains (l : list ItemPtr) (x : ItemPtr) : bool :=
  bool_decide (x ∈ l).

(** [QList::removeOne]: drops the first occurrence, if any. *)
Fixpoint removeOne (x : ItemPtr) (l : list ItemPtr) : list ItemPtr :=
  match l with
  | [] => []
  | y :: l' => if decide (y = x) then l' else y :: removeOne x l'
  end.

(** [operator[]] with an [int] index. *)
Definition at_ {A} (l : list A) (i : Z) : option A :=
  if decide (0 <= i) then l !! Z.to_nat i else None.

(** The collaborators the widget is compiled against: the items' virtual
    [sameAs], [std::sort], the width [setColumnTitleInfo] works out for a
    title from the font metrics, the paddings and the arrow pixmap, and the
    default arguments that the header gives to [clearSelections] and
    [addSelections]. *)
Record Env : Type := {
  sameAs : ItemPtr -> ItemPtr -> bool;
  std_sort : (ItemPtr -> ItemPtr -> bool) -> list ItemPtr -> list ItemPtr;
  renderTitleWidth : string -> Z;
  clearLastSelection_default : bool;
  recordLastSelection_default : bool
}.

(** ** The private data of the view *)

(** What only the configuration calls write ([setRowHeight],
    [setColumnTitleInfo], [setColumnHideFlags], [setColumnSortingAlgorithms],
    [setSearchAlgorithm], [setSingleSelect], [keepSelectWhenClickBlank]) and
    the widget rectangle [rect()], whose origin is [(0, 0)].
    [sortingAlgorithms] points to a list of the caller: [None] is the null
    pointer. *)
Record Config : Type := {
  rowHeight : Z;
  scrollUnit : Z;
  titleHeight : Z;
  scrollbarMinHeight : Z;
  scrollbarDragWidth : Z;
  width : Z;
  height : Z;
  columnTitles : list string;
  columnWidths : list Z;
  columnVisibles : list bool;
  isSingleSelect : bool;
  isKeepSelectWhenClickBlank : bool;
  searchAlgorithm : option SearchAlgorithm;
  sortingAlgorithms : option (list SortAlgorithm)
}.

Record State : Type := {
  config :> Config;
  listItems : list ItemPtr;
  renderItems : list ItemPtr;
  selectionItems : list ItemPtr;
  lastSelectItem : ItemPtr;
  searchContent : string;
  sortingOrderes : list bool;
  defaultSortingColumn : Z;
  defaultSortingOrder : bool;
  titlePressColumn : Z;
  mouseDragScrollbar : bool;
  oldRenderOffset : Z;
  renderOffset : Z
}.

(** Assignment to one member. *)
Definition set_config (v : Config) (s : State) : State :=
  {| config := v; listItems := listItems s; renderItems := renderItems s;
     selectionItems := selectionItems s; lastSelectItem := lastSelectItem s;
     searchContent := searchContent s; sortingOrderes := sortingOrderes s;
     defaultSortingColumn := defaultSortingColumn s; defaultSortingOrder :=
     defaultSortingOrder s; titlePressColumn := titlePressColumn s;
     mouseDragScrollbar := mouseDragScrollbar s; oldRenderOffset :=
     oldRenderOffset s; renderOffset := renderOffset s |}.
Definition set_listItems (v : list ItemPtr) (s : State) : State :=
  {| config := config s; listItems := v; renderItems := renderItems s;
     selectionItems := selectionItems s; lastSelectItem := lastSelectItem s;
     searchContent := searchContent s; sortingOrderes := sortingOrderes s;
     defaultSortingColumn := defaultSortingColumn s; defaultSortingOrder :=
     defaultSortingOrder s; titlePressColumn := titlePressColumn s;
     mouseDragScrollbar := mouseDragScrollbar s; oldRenderOffset :=
     oldRenderOffset s; renderOffset := renderOffset s |}.
Definition set_renderItems (v : list ItemPtr) (s : State) : State :=
  {| config := config s; listItems := listItems s; renderItems := v;
     selectionItems := selectionItems s; lastSelectItem := lastSelectItem s;
     searchContent := searchContent s; sortingOrderes := sortingOrderes s;
     defaultSortingColumn := defaultSortingColumn s; defaultSortingOrder :=
     defaultSortingOrder s; titlePressColumn := titlePressColumn s;
     mouseDragScrollbar := mouseDragScrollbar s; oldRenderOffset :=
     oldRenderOffset s; renderOffset := renderOffset s |}.
Definition set_selectionItems (v : list ItemPtr) (s : State) : State :=
  {| config := config s; listItems := listItems s; renderItems := renderItems
     s; selectionItems := v; lastSelectItem := lastSelectItem s; searchContent :=
     searchContent s; sortingOrderes := sortingOrderes s; defaultSortingColumn :=
     defaultSortingColumn s; defaultSortingOrder := defaultSortingOrder s;
     titlePressColumn := titlePressColumn s; mouseDragScrollbar :=
     mouseDragScrollbar s; oldRenderOffset := oldRenderOffset s; renderOffset :=
     renderOffset s |}.
Definition set_lastSelectItem (v : ItemPtr) (s : State) : State :=
  {| config := config s; listItems := listItems s; renderItems := renderItems
     s; selectionItems := selectionItems s; lastSelectItem := v; searchContent :=
     searchContent s; sortingOrderes := sortingOrderes s; defaultSortingColumn :=
     defaultSortingColumn s; defaultSortingOrder := defaultSortingOrder s;
     titlePressColumn := titlePressColumn s; mouseDragScrollbar :=
     mouseDragScrollbar s; oldRenderOffset := oldRenderOffset s; renderOffset :=
     renderOffset s |}.
Definition set_searchContent (v : string) (s : State) : State :=
  {| config := config s; listItems := listItems s; renderItems := renderItems
     s; selectionItems := selectionItems s; lastSelectItem := lastSelectItem s;
     searchContent := v; sortingOrderes := sortingOrderes s; defaultSortingColumn
     := defaultSortingColumn s; defaultSortingOrder := defaultSortingOrder s;
     titlePressColumn := titlePressColumn s; mouseDragScrollbar :=
     mouseDragScrollbar s; oldRenderOffset := oldRenderOffset s; renderOffset :=
     renderOffset s |}.
Definition set_sortingOrderes (v : list bool) (s : State) : State :=
  {| config := config s; listItems := listItems s; renderItems := renderItems
     s; selectionItems := selectionItems s; lastSelectItem := lastSelectItem s;
     searchContent := searchContent s; sortingOrderes := v; defaultSortingColumn
     := defaultSortingColumn s; defaultSortingOrder := defaultSortingOrder s;
     titlePressColumn := titlePressColumn s; mouseDragScrollbar :=
     mouseDragScrollbar s; oldRenderOffset := oldRenderOffset s; renderOffset :=
     renderOffset s |}.
Definition set_defaultSortingColumn (v : Z) (s : State) : State :=
  {| config := config s; listItems := listItems s; renderItems := renderItems
     s; selectionItems := selectionItems s; lastSelectItem := lastSelectItem s;
     searchContent := searchContent s; sortingOrderes := sortingOrderes s;
     defaultSortingColumn := v; defaultSortingOrder := defaultSortingOrder s;
     titlePressColumn := titlePressColumn s; mouseDragScrollbar :=
     mouseDragScrollbar s; oldRenderOffset := oldRenderOffset s; renderOffset :=
     renderOffset s |}.
Definition set_defaultSortingOrder (v : bool) (s : State) : State :=
  {| config := config s; listItems := listItems s; renderItems := renderItems
     s; selectionItems := selectionItems s; lastSelectItem := lastSelectItem s;
     searchContent := searchContent s; sortingOrderes := sortingOrderes s;
     defaultSortingColumn := defaultSortingColumn s; defaultSortingOrder := v;
     titlePressColumn := titlePressColumn s; mouseDragScrollbar :=
     mouseDragScrollbar s; oldRenderOffset := oldRenderOffset s; renderOffset :=
     renderOffset s |}.
Definition set_titlePressColumn (v : Z) (s : State) : State :=
  {| config := config s; listItems := listItems s; renderItems := renderItems
     s; selectionItems := selectionItems s; lastSelectItem := lastSelectItem s;
     searchContent := searchContent s; sortingOrderes := sortingOrderes s;
     defaultSortingColumn := defaultSortingColumn s; defaultSortingOrder :=
     defaultSortingOrder s; titlePressColumn := v; mouseDragScrollbar :=
     mouseDragScrollbar s; oldRenderOffset := oldRenderOffset s; renderOffset :=
     renderOffset s |}.
Definition set_mouseDragScrollbar (v : bool) (s : State) : State :=
  {| config := config s; listItems := listItems s; renderItems := renderItems
     s; selectionItems := selectionItems s; lastSelectItem := lastSelectItem s;
     searchContent := searchContent s; sortingOrderes := sortingOrderes s;
     defaultSortingColumn := defaultSortingColumn s; defaultSortingOrder :=
     defaultSortingOrder s; titlePressColumn := titlePressColumn s;
     mouseDragScrollbar := v; oldRenderOffset := oldRenderOffset s; renderOffset
     := renderOffset s |}.
Definition set_oldRenderOffset (v : Z) (s : State) : State :=
  {| config := config s; listItems := listItems s; renderItems := renderItems
     s; selectionItems := selectionItems s; lastSelectItem := lastSelectItem s;
     searchContent := searchContent s; sortingOrderes := sortingOrderes s;
     defaultSortingColumn := defaultSortingColumn s; defaultSortingOrder :=
     defaultSortingOrder s; titlePressColumn := titlePressColumn s;
     mouseDragScrollbar := mouseDragScrollbar s; oldRenderOffset := v;
     renderOffset := renderOffset s |}.
Definition set_renderOffset (v : Z) (s : State) : State :=
  {| config := config s; listItems := listItems s; renderItems := renderItems
     s; selectionItems := selectionItems s; lastSelectItem := lastSelectItem s;
     searchContent := searchContent s; sortingOrderes := sortingOrderes s;
     defaultSortingColumn := defaultSortingColumn s; defaultSortingOrder :=
     defaultSortingOrder s; titlePressColumn := titlePressColumn s;
     mouseDragScrollbar := mouseDragScrollbar s; oldRenderOffset :=
     oldRenderOffset s; renderOffset := v |}.
Definition set_rowHeight (v : Z) (s : State) : State :=
  set_config
    {| rowHeight := v; scrollUnit := scrollUnit s; titleHeight := titleHeight
       s; scrollbarMinHeight := scrollbarMinHeight s; scrollbarDragWidth :=
       scrollbarDragWidth s; width := width s; height := height s; columnTitles
       := columnTitles s; columnWidths := columnWidths s; columnVisibles :=
       columnVisibles s; isSingleSelect := isSingleSelect s;
       isKeepSelectWhenClickBlank := isKeepSelectWhenClickBlank s;
       searchAlgorithm := searchAlgorithm s; sortingAlgorithms :=
       sortingAlgorithms s |} s.
Definition set_scrollUnit (v : Z) (s : State) : State :=
  set_config
    {| rowHeight := rowHeight s; scrollUnit := v; titleHeight := titleHeight
       s; scrollbarMinHeight := scrollbarMinHeight s; scrollbarDragWidth :=
       scrollbarDragWidth s; width := width s; height := height s; columnTitles
       := columnTitles s; columnWidths := columnWidths s; columnVisibles :=
       columnVisibles s; isSingleSelect := isSingleSelect s;
       isKeepSelectWhenClickBlank := isKeepSelectWhenClickBlank s;
       searchAlgorithm := searchAlgorithm s; sortingAlgorithms :=
       sortingAlgorithms s |} s.
Definition set_titleHeight (v : Z) (s : State) : State :=
  set_config
    {| rowHeight := rowHeight s; scrollUnit := scrollUnit s; titleHeight := v;
       scrollbarMinHeight := scrollbarMinHeight s; scrollbarDragWidth :=
       scrollbarDragWidth s; width := width s; height := height s; columnTitles
       := columnTitles s; columnWidths := columnWidths s; columnVisibles :=
       columnVisibles s; isSingleSelect := isSingleSelect s;
       isKeepSelectWhenClickBlank := isKeepSelectWhenClickBlank s;
       searchAlgorithm := searchAlgorithm s; sortingAlgorithms :=
       sortingAlgorithms s |} s.
Definition set_columnTitles (v : list string) (s : State) : State :=
  set_config
    {| rowHeight := rowHeight s; scrollUnit := scrollUnit s; titleHeight :=
       titleHeight s; scrollbarMinHeight := scrollbarMinHeight s;
       scrollbarDragWidth := scrollbarDragWidth s; width := width s; height :=
       height s; columnTitles := v; columnWidths := columnWidths s;
       columnVisibles := columnVisibles s; isSingleSelect := isSingleSelect s;
       isKeepSelectWhenClickBlank := isKeepSelectWhenClickBlank s;
       searchAlgorithm := searchAlgorithm s; sortingAlgorithms :=
       sortingAlgorithms s |} s.
Definition set_columnWidths (v : list Z) (s : State) : State :=
  set_config
    {| rowHeight := rowHeight s; scrollUnit := scrollUnit s; titleHeight :=
       titleHeight s; scrollbarMinHeight := scrollbarMinHeight s;
       scrollbarDragWidth := scrollbarDragWidth s; width := width s; height :=
       height s; columnTitles := columnTitles s; columnWidths := v;
       columnVisibles := columnVisibles s; isSingleSelect := isSingleSelect s;
       isKeepSelectWhenClickBlank := isKeepSelectWhenClickBlank s;
       searchAlgorithm := searchAlgorithm s; sortingAlgorithms :=
       sortingAlgorithms s |} s.
Definition set_columnVisibles (v : list bool) (s : State) : State :=
  set_config
    {| rowHeight := rowHeight s; scrollUnit := scrollUnit s; titleHeight :=
       titleHeight s; scrollbarMinHeight := scrollbarMinHeight s;
       scrollbarDragWidth := scrollbarDragWidth s; width := width s; height :=
       height s; columnTitles := columnTitles s; columnWidths := columnWidths s;
       columnVisibles := v; isSingleSelect := isSingleSelect s;
       isKeepSelectWhenClickBlank := isKeepSelectWhenClickBlank s;
       searchAlgorithm := searchAlgorithm s; sortingAlgorithms :=
       sortingAlgorithms s |} s.
Definition set_isSingleSelect (v : bool) (s : State) : State :=
  set_config
    {| rowHeight := rowHeight s; scrollUnit := scrollUnit s; titleHeight :=
       titleHeight s; scrollbarMinHeight := scrollbarMinHeight s;
       scrollbarDragWidth := scrollbarDragWidth s; width := width s; height :=
       height s; columnTitles := columnTitles s; columnWidths := columnWidths s;
       columnVisibles := columnVisibles s; isSingleSelect := v;
       isKeepSelectWhenClickBlank := isKeepSelectWhenClickBlank s;
       searchAlgorithm := searchAlgorithm s; sortingAlgorithms :=
       sortingAlgorithms s |} s.
Definition set_isKeepSelectWhenClickBlank (v : bool) (s : State) : State :=
  set_config
    {| rowHeight := rowHeight s; scrollUnit := scrollUnit s; titleHeight :=
       titleHeight s; scrollbarMinHeight := scrollbarMinHeight s;
       scrollbarDragWidth := scrollbarDragWidth s; width := width s; height :=
       height s; columnTitles := columnTitles s; columnWidths := columnWidths s;
       columnVisibles := columnVisibles s; isSingleSelect := isSingleSelect s;
       isKeepSelectWhenClickBlank := v; searchAlgorithm := searchAlgorithm s;
       sortingAlgorithms := sortingAlgorithms s |} s.
Definition set_searchAlgorithm (v : option SearchAlgorithm) (s : State) : State :=
  set_config
    {| rowHeight := rowHeight s; scrollUnit := scrollUnit s; titleHeight :=
       titleHeight s; scrollbarMinHeight := scrollbarMinHeight s;
       scrollbarDragWidth := scrollbarDragWidth s; width := width s; height :=
       height s; columnTitles := columnTitles s; columnWidths := columnWidths s;
       columnVisibles := columnVisibles s; isSingleSelect := isSingleSelect s;
       isKeepSelectWhenClickBlank := isKeepSelectWhenClickBlank s;
       searchAlgorithm := v; sortingAlgorithms := sortingAlgorithms s |} s.
Definition set_sortingAlgorithms (v : option (list SortAlgorithm)) (s : State) : State :=
  set_config
    {| rowHeight := rowHeight s; scrollUnit := scrollUnit s; titleHeight :=
       titleHeight s; scrollbarMinHeight := scrollbarMinHeight s;
       scrollbarDragWidth := scrollbarDragWidth s; width := width s; height :=
       height s; columnTitles := columnTitles s; columnWidths := columnWidths s;
       columnVisibles := columnVisibles s; isSingleSelect := isSingleSelect s;
       isKeepSelectWhenClickBlank := isKeepSelectWhenClickBlank s;
       searchAlgorithm := searchAlgorithm s; sortingAlgorithms := v |} s.

(** ** Configuration *)

Definition setRowHeight (height : Z) (s : State) : State :=
  if decide (rowHeight s = height) then s
  else
    let s := set_rowHeight height s in
    set_scrollUnit (rowHeight s) s.

(** The widths [setColumnTitleInfo] stores: [-1] stays, any other width grows
    to what its title needs. *)
Fixpoint titleWidths (E : Env) (titles : list string) (widths : list Z)
    (i : nat) : option (list Z) :=
  match widths with
  | [] => Some []
  | w :: rest =>
      finalWidth ← (if decide (w = -1) then Some w
                    else
                      title ← titles !! i;
                      Some (Z.max w (renderTitleWidth E title)));
      others ← titleWidths E titles rest (S i);
      Some (finalWidth :: others)
  end.

Definition setColumnTitleInfo (E : Env) (titles : list string)
    (widths : list Z) (height : Z) (s : State) : option State :=
  let s := set_columnTitles titles s in
  columnWidths ← titleWidths E titles widths 0;
  let s := set_columnWidths columnWidths s in
  Some (set_titleHeight height s).

(** [Q_ASSERT_X] stops the program on flags that do not match the titles;
    [alwaysVisibleColumn] only serves the column menu and is not kept. *)
Definition setColumnHideFlags (toggleHideFlags : list bool)
    (visibleColumnIndex : Z) (s : State) : option State :=
  if decide (length toggleHideFlags = length (columnTitles s))
  then Some (set_columnVisibles toggleHideFlags s)
  else None.

Definition setColumnSortingAlgorithms (algorithms : option (list SortAlgorithm))
    (sortColumn : Z) (descendingSort : bool) (s : State) : State :=
  let s := set_sortingAlgorithms algorithms s in
  let s :=
    match algorithms with
    | Some algs =>
        set_sortingOrderes (sortingOrderes s ++ replicate (length algs) false) s
    | None => s
    end in
  let s := set_defaultSortingColumn sortColumn s in
  set_defaultSortingOrder descendingSort s.

Definition setSearchAlgorithm (algorithm : option SearchAlgorithm) (s : State)
    : State :=
  set_searchAlgorithm algorithm s.

Definition setSingleSelect (singleSelect : bool) (s : State) : State :=
  if decide (isSingleSelect s = singleSelect) then s
  else set_isSingleSelect singleSelect s.

Definition keepSelectWhenClickBlank (keep : bool) (s : State) : State :=
  if decide (isKeepSelectWhenClickBlank s = keep) then s
  else set_isKeepSelectWhenClickBlank keep s.

(** ** Geometry of the scroll area *)

Definition getItemsTotalHeight (s : State) : Z :=
  Z.of_nat (length (renderItems s)) * rowHeight s.

Definition getScrollAreaHeight (s : State) : Z := height s - titleHeight s.

Definition getTopRenderOffset (s : State) : Z := 0.

Definition getBottomRenderOffset (s : State) : Z :=
  let itemsHeight := getItemsTotalHeight s in
  if decide (itemsHeight > height s - titleHeight s)
  then getItemsTotalHeight s - height s + titleHeight s
  else 0.

Definition adjustRenderOffset (s : State) (offset : Z) : Z :=
  Z.max 0 (Z.min offset (getBottomRenderOffset s)).

Definition getScrollbarHeight (s : State) : option Z :=
  h ← to_int (of_int (getScrollAreaHeight s)
              / (of_int (getItemsTotalHeight s) * 1)
              * of_int (height s))%float;
  Some (Z.max h (scrollbarMinHeight s)).

Definition getScrollbarY (s : State) : option Z :=
  y ← to_int (of_int (renderOffset s)
              / (of_int (getItemsTotalHeight s) * 1)
              * of_int (getScrollAreaHeight s)
              + of_int (titleHeight s))%float;
  barHeight ← getScrollbarHeight s;
  Some (Z.min y (height s - barHeight)).

Definition isMouseAtScrollArea (s : State) (x : Z) : bool :=
  bool_decide (x > 0 + width s - scrollbarDragWidth s)
  && bool_decide (x < 0 + width s).

Definition isMouseAtTitleArea (s : State) (y : Z) : bool :=
  bool_decide (y > 0) && bool_decide (y < 0 + titleHeight s).

(** The pointer-to-offset mapping shared by the scrollbar drag and the click
    on the scrollbar track. *)
Definition scrollbarOffsetAt (s : State) (my barHeight : Z) : option Z :=
  to_int (of_int (my - Z.quot barHeight 2 - titleHeight s)
          / (of_int (getScrollAreaHeight s) * 1)
          * of_int (getItemsTotalHeight s))%float.

Definition getRenderWidths (s : State) : list Z :=
  let visible (i : nat) : bool := default false (columnVisibles s !! i) in
  if decide (0 < length (columnWidths s))%nat then
    if decide (-1 ∈ columnWidths s) then
      imap (fun i w =>
              if decide (w ≠ -1) then (if visible i then w else 0)
              else if visible i then
                let totalWidthOfOtherColumns :=
                  foldl Z.add 0
                    (imap (fun j wj =>
                             if decide (wj ≠ -1) then
                               (if visible j then wj else 0)
                             else 0)
                          (columnWidths s)) in
                width s - totalWidthOfOtherColumns
              else 0)
           (columnWidths s)
    else imap (fun i w => if visible i then w else 0) (columnWidths s)
  else [width s].

(** The scan over the render widths that every mouse handler repeats: the
    first visible column whose span strictly contains [mx]. *)
Fixpoint columnAt (mx : Z) (renderWidths : list Z)
    (columnCounter : nat) (columnRenderX : Z) : option nat :=
  match renderWidths with
  | [] => None
  | renderWidth :: rest =>
      if decide (renderWidth > 0) then
        if decide (mx > columnRenderX ∧ mx < columnRenderX + renderWidth)
        then Some columnCounter
        else columnAt mx rest (S columnCounter) (columnRenderX + renderWidth)
      else columnAt mx rest (S columnCounter) columnRenderX
  end.

(** ** Search and sort *)

Definition getSearchItems (s : State) (items : list ItemPtr) : list ItemPtr :=
  match searchAlgorithm s with
  | Some algorithm =>
      if decide (searchContent s = "") then items
      else filter (fun item => algorithm item (searchContent s)) items
  | None => items
  end.

(** The guard shared by [sortItemsByColumn] and the title handlers. *)
Definition sortingReady (s : State) (algs : list SortAlgorithm) : Prop :=
  length algs ≠ 0%nat
  ∧ length algs = length (columnTitles s)
  ∧ length (sortingOrderes s) = length (columnTitles s).

Global Instance sortingReady_dec s algs : Decision (sortingReady s algs).
Proof. unfold sortingReady. apply _. Defined.

(** [std::sort] only calls the comparator, and with it [operator[]] on the
    algorithm list, when there are two elements to compare. *)
Definition sortItemsByColumn (E : Env) (column : Z) (descendingSort : bool)
    (s : State) : option State :=
  algs ← sortingAlgorithms s;
  if decide (sortingReady s algs) then
    if decide (length (renderItems s) < 2)%nat then Some s
    else
      algorithm ← at_ algs column;
      Some (set_renderItems
              (std_sort E (fun item1 item2 => algorithm item1 item2 descendingSort)
                        (renderItems s)) s)
  else Some s.

(** ** Items *)

Definition addItems (E : Env) (items : list ItemPtr) (s : State)
    : option State :=
  let s := set_listItems (listItems s ++ items) s in
  let searchItems := getSearchItems s items in
  let s := set_renderItems (renderItems s ++ searchItems) s in
  if decide (defaultSortingColumn s ≠ -1)
  then sortItemsByColumn E (defaultSortingColumn s) (defaultSortingOrder s) s
  else Some s.

Definition removeItem (item : ItemPtr) (s : State) : State :=
  if decide (item = nullptr) then s
  else
    let s := set_listItems (removeOne item (listItems s)) s in
    let s := set_renderItems (removeOne item (renderItems s)) s in
    if decide (renderOffset s >= getItemsTotalHeight s - height s)
    then set_renderOffset (adjustRenderOffset s (renderOffset s - rowHeight s)) s
    else s.

(** [qDeleteAll] destroys the items of [listItems]; a [QPointer] to a
    destroyed item reads as null from then on. *)
Definition clearItems (s : State) : State :=
  let deleted := listItems s in
  let guarded (p : ItemPtr) := if contains deleted p then nullptr else p in
  let s := set_lastSelectItem (guarded (lastSelectItem s)) s in
  let s := set_listItems [] s in
  set_renderItems [] s.

(** ** Selection *)

Definition addSelections (items : list ItemPtr) (recordLastSelection : bool)
    (s : State) : State :=
  let s := set_selectionItems (selectionItems s ++ items) s in
  match last (selectionItems s) with
  | Some item => if recordLastSelection then set_lastSelectItem item s else s
  | None => s
  end.

Definition clearSelections (clearLastSelection : bool) (s : State) : State :=
  let s := set_selectionItems [] s in
  if clearLastSelection then set_lastSelectItem nullptr s else s.

Definition getSelections (s : State) : list ItemPtr := selectionItems s.

Definition refreshItems (E : Env) (items : list ItemPtr) (s : State)
    : option State :=
  let newSelectionItems :=
    filter (fun item => existsb (sameAs E item) (selectionItems s)) items in
  let firstSameAs (p : ItemPtr) : ItemPtr :=
    if decide (p ≠ nullptr)
    then default nullptr (List.find (fun item => sameAs E item p) items)
    else nullptr in
  let newLastSelectionItem := firstSameAs (lastSelectItem s) in
  let s := clearItems s in
  let s := set_listItems (listItems s ++ items) s in
  let searchItems := getSearchItems s items in
  let s := set_renderItems (renderItems s ++ searchItems) s in
  s ← (if decide (defaultSortingColumn s ≠ -1)
       then sortItemsByColumn E (defaultSortingColumn s) (defaultSortingOrder s) s
       else Some s);
  let s := clearSelections (clearLastSelection_default E) s in
  let s := addSelections newSelectionItems false s in
  let s := set_lastSelectItem newLastSelectionItem s in
  Some (set_renderOffset (adjustRenderOffset s (renderOffset s)) s).

Definition search (content : string) (s : State) : State :=
  if decide (content = "" ∧ searchContent s ≠ content) then
    let s := set_searchContent content s in
    let s := set_renderItems [] s in
    set_renderItems (renderItems s ++ listItems s) s
  else
    let s := set_searchContent content s in
    let searchItems := getSearchItems s (listItems s) in
    let s := set_renderItems [] s in
    set_renderItems (renderItems s ++ searchItems) s.

Definition selectAllItems (E : Env) (s : State) : State :=
  if isSingleSelect s then s
  else
    let s := set_oldRenderOffset (renderOffset s) s in
    let s := clearSelections (clearLastSelection_default E) s in
    let s := addSelections (renderItems s) (recordLastSelection_default E) s in
    set_renderOffset (getTopRenderOffset s) s.

Definition selectFirstItem (E : Env) (s : State) : State :=
  match renderItems s with
  | [] => s
  | first :: _ =>
      let s := set_oldRenderOffset (renderOffset s) s in
      let s := clearSelections (clearLastSelection_default E) s in
      let s := addSelections [first] (recordLastSelection_default E) s in
      set_renderOffset (getTopRenderOffset s) s
  end.

Definition selectLastItem (E : Env) (s : State) : State :=
  match last (renderItems s) with
  | None => s
  | Some item =>
      let s := set_oldRenderOffset (renderOffset s) s in
      let s := clearSelections (clearLastSelection_default E) s in
      let s := addSelections [item] (recordLastSelection_default E) s in
      set_renderOffset (getBottomRenderOffset s) s
  end.

(** ** Keyboard navigation *)

Definition selectNextItemWithOffset (E : Env) (scrollOffset : Z) (s : State)
    : option State :=
  let s := set_oldRenderOffset (renderOffset s) s in
  if decide (selectionItems s = []) then Some (selectFirstItem E s)
  else
    let lastIndex :=
      foldl (fun lastIndex item =>
               let index := indexOf (renderItems s) item in
               if decide (index > lastIndex) then index else lastIndex)
            0 (selectionItems s) in
    if decide (lastIndex ≠ -1) then
      let newIndex :=
        Z.min (Z.of_nat (length (renderItems s)) - 1) (lastIndex + scrollOffset) in
      let lastIndex := newIndex in
      let s := clearSelections false s in
      item ← at_ (renderItems s) lastIndex;
      let s := addSelections [item] (recordLastSelection_default E) s in
      let itemIndex := lastIndex + 1 in
      let itemOffset :=
        adjustRenderOffset s (itemIndex * rowHeight s - height s + titleHeight s) in
      row ← idiv (renderOffset s + getScrollAreaHeight s) (rowHeight s);
      Some (if decide (row < itemIndex) then set_renderOffset itemOffset s else s)
    else Some s.

Definition selectPrevItemWithOffset (E : Env) (scrollOffset : Z) (s : State)
    : option State :=
  let s := set_oldRenderOffset (renderOffset s) s in
  if decide (selectionItems s = []) then Some (selectFirstItem E s)
  else
    let firstIndex :=
      foldl (fun firstIndex item =>
               let index := indexOf (renderItems s) item in
               if decide (index < firstIndex) then index else firstIndex)
            (Z.of_nat (length (renderItems s))) (selectionItems s) in
    if decide (firstIndex ≠ -1) then
      let newIndex := Z.max 0 (firstIndex - scrollOffset) in
      let firstIndex := newIndex in
      let s := clearSelections (clearLastSelection_default E) s in
      item ← at_ (renderItems s) firstIndex;
      let s := addSelections [item] (recordLastSelection_default E) s in
      let itemIndex := firstIndex - 1 in
      let itemOffset := adjustRenderOffset s (itemIndex * rowHeight s + titleHeight s) in
      row ← idiv (renderOffset s) (rowHeight s);
      Some (if decide (row > itemIndex) then set_renderOffset itemOffset s else s)
    else Some s.

Definition selectPrevItem (E : Env) : State -> option State :=
  selectPrevItemWithOffset E 1.

Definition selectNextItem (E : Env) : State -> option State :=
  selectNextItemWithOffset E 1.

Definition shiftSelectItemsWithBound (selectionStartIndex selectionEndIndex : Z)
    (s : State) : State :=
  let s := clearSelections false s in
  let items :=
    omap id
      (imap (fun index item =>
               if decide (Z.of_nat index >= selectionStartIndex
                          ∧ Z.of_nat index <= selectionEndIndex)
               then Some item else None)
            (renderItems s)) in
  addSelections items false s.

(** The loop of the two shift handlers: the least and the greatest
    [indexOf] over the selection. *)
Definition selectionBounds (s : State) : Z * Z :=
  foldl (fun '(firstIndex, lastIndex) item =>
           let index := indexOf (renderItems s) item in
           (if decide (index < firstIndex) then index else firstIndex,
            if decide (index > lastIndex) then index else lastIndex))
        (Z.of_nat (length (renderItems s)), 0) (selectionItems s).

Definition shiftSelectPrevItemWithOffset (E : Env) (scrollOffset : Z)
    (s : State) : option State :=
  let s := set_oldRenderOffset (renderOffset s) s in
  if decide (selectionItems s = []) then Some (selectFirstItem E s)
  else
    let '(firstIndex, lastIndex) := selectionBounds s in
    if decide (firstIndex ≠ -1) then
      let lastSelectionIndex := indexOf (renderItems s) (lastSelectItem s) in
      let '(selectionStartIndex, selectionEndIndex) :=
        if decide (lastIndex = lastSelectionIndex)
        then (Z.max 0 (firstIndex - scrollOffset), lastSelectionIndex)
        else (firstIndex, Z.max 0 (lastIndex - scrollOffset)) in
      let s := shiftSelectItemsWithBound selectionStartIndex selectionEndIndex s in
      row ← idiv (renderOffset s) (rowHeight s);
      Some (if decide (row >= selectionStartIndex)
            then set_renderOffset
                   (adjustRenderOffset s
                      ((selectionStartIndex - 1) * rowHeight s + titleHeight s)) s
            else s)
    else Some s.

Definition shiftSelectNextItemWithOffset (E : Env) (scrollOffset : Z)
    (s : State) : option State :=
  let s := set_oldRenderOffset (renderOffset s) s in
  if decide (selectionItems s = []) then Some (selectFirstItem E s)
  else
    let '(firstIndex, lastIndex) := selectionBounds s in
    if decide (firstIndex ≠ -1) then
      let lastSelectionIndex := indexOf (renderItems s) (lastSelectItem s) in
      let count := Z.of_nat (length (renderItems s)) in
      let '(selectionStartIndex, selectionEndIndex) :=
        if decide (firstIndex = lastSelectionIndex)
        then (firstIndex, Z.min (count - 1) (lastIndex + scrollOffset))
        else (Z.min (count - 1) (firstIndex + scrollOffset), lastIndex) in
      let s := shiftSelectItemsWithBound selectionStartIndex selectionEndIndex s in
      row ← idiv (renderOffset s + height s) (rowHeight s);
      Some (if decide (row <= selectionEndIndex + 1)
            then set_renderOffset
                   (adjustRenderOffset s
                      ((selectionEndIndex + 1) * rowHeight s
                       + titleHeight s - height s)) s
            else s)
    else Some s.

Definition shiftSelectPageDown (E : Env) (s : State) : option State :=
  if isSingleSelect s then Some s
  else
    n ← idiv (getScrollAreaHeight s) (rowHeight s);
    shiftSelectNextItemWithOffset E n s.

Definition shiftSelectPageUp (E : Env) (s : State) : option State :=
  if isSingleSelect s then Some s
  else
    n ← idiv (getScrollAreaHeight s) (rowHeight s);
    shiftSelectPrevItemWithOffset E n s.

Definition shiftSelectToEnd (E : Env) (s : State) : State :=
  if isSingleSelect s then s
  else if decide (selectionItems s = []) then selectLastItem E s
  else
    let lastSelectionIndex := indexOf (renderItems s) (lastSelectItem s) in
    let s :=
      shiftSelectItemsWithBound lastSelectionIndex
        (Z.of_nat (length (renderItems s)) - 1) s in
    set_renderOffset (getBottomRenderOffset s) s.

Definition shiftSelectToHome (E : Env) (s : State) : State :=
  if isSingleSelect s then s
  else if decide (selectionItems s = []) then selectFirstItem E s
  else
    let lastSelectionIndex := indexOf (renderItems s) (lastSelectItem s) in
    let s := shiftSelectItemsWithBound 0 lastSelectionIndex s in
    set_renderOffset (getTopRenderOffset s) s.

Definition shiftSelectToNext (E : Env) (s : State) : option State :=
  if isSingleSelect s then Some s else shiftSelectNextItemWithOffset E 1 s.

Definition shiftSelectToPrev (E : Env) (s : State) : option State :=
  if isSingleSelect s then Some s else shiftSelectPrevItemWithOffset E 1 s.

Definition scrollPageDown (E : Env) (s : State) : option State :=
  n ← idiv (getScrollAreaHeight s) (rowHeight s);
  selectNextItemWithOffset E n s.

Definition scrollPageUp (E : Env) (s : State) : option State :=
  n ← idiv (getScrollAreaHeight s) (rowHeight s);
  selectPrevItemWithOffset E n s.

Definition ctrlScrollPageUp (s : State) : State :=
  set_renderOffset
    (adjustRenderOffset s (renderOffset s - getScrollAreaHeight s)) s.

Definition ctrlScrollPageDown (s : State) : State :=
  set_renderOffset
    (adjustRenderOffset s (renderOffset s + getScrollAreaHeight s)) s.

Definition ctrlScrollToHome (s : State) : State :=
  set_renderOffset (getTopRenderOffset s) s.

Definition ctrlScrollToEnd (s : State) : State :=
  set_renderOffset (getBottomRenderOffset s) s.

Inductive Key : Set :=
  Key_Home | Key_End | Key_Up | Key_Down | Key_PageUp | Key_PageDown | Key_A
| Key_other.

(** The values [modifiers()] is compared with; anything else, a combination
    included, is [OtherModifiers]. *)
Inductive KeyboardModifiers : Set :=
  NoModifier | ControlModifier | ShiftModifier | OtherModifiers.

Global Instance KeyboardModifiers_eq_dec : EqDecision KeyboardModifiers.
Proof. solve_decision. Defined.

Definition keyPressEvent (E : Env) (key : Key) (modifiers : KeyboardModifiers)
    (s : State) : option State :=
  match key, modifiers with
  | Key_Home, ControlModifier => Some (ctrlScrollToHome s)
  | Key_Home, ShiftModifier => Some (shiftSelectToHome E s)
  | Key_Home, _ => Some (selectFirstItem E s)
  | Key_End, ControlModifier => Some (ctrlScrollToEnd s)
  | Key_End, ShiftModifier => Some (shiftSelectToEnd E s)
  | Key_End, _ => Some (selectLastItem E s)
  | Key_Up, ShiftModifier => shiftSelectToPrev E s
  | Key_Up, _ => selectPrevItem E s
  | Key_Down, ShiftModifier => shiftSelectToNext E s
  | Key_Down, _ => selectNextItem E s
  | Key_PageUp, ControlModifier => Some (ctrlScrollPageUp s)
  | Key_PageUp, ShiftModifier => shiftSelectPageUp E s
  | Key_PageUp, _ => scrollPageUp E s
  | Key_PageDown, ControlModifier => Some (ctrlScrollPageDown s)
  | Key_PageDown, ShiftModifier => shiftSelectPageDown E s
  | Key_PageDown, _ => scrollPageDown E s
  | Key_A, ControlModifier => Some (selectAllItems E s)
  | Key_A, _ => Some s
  | Key_other, _ => Some s
  end.

(** ** Mouse and wheel *)

Inductive MouseButton : Set := LeftButton | RightButton | OtherButton.

(** The block [mousePressEvent] runs for the title column under the pointer. *)
Definition pressTitleColumn (E : Env) (columnCounter : nat) (s : State)
    : option State :=
  old ← sortingOrderes s !! columnCounter;
  let order :=
    if decide (Z.of_nat columnCounter ≠ defaultSortingColumn s) then true
    else negb old in
  let s := set_sortingOrderes (<[columnCounter := order]> (sortingOrderes s)) s in
  let s := set_defaultSortingColumn (Z.of_nat columnCounter) s in
  let s := set_defaultSortingOrder order s in
  s ← sortItemsByColumn E (Z.of_nat columnCounter) order s;
  Some (if decide (Z.of_nat columnCounter ≠ titlePressColumn s)
        then set_titlePressColumn (Z.of_nat columnCounter) s else s).

(** Left button on the title; the right button opens the column menu, a
    modal interaction that is not modelled. *)
Definition pressTitleArea (E : Env) (button : MouseButton) (mx : Z) (s : State)
    : option State :=
  match button with
  | LeftButton =>
      algs ← sortingAlgorithms s;
      if decide (sortingReady s algs) then
        match columnAt mx (getRenderWidths s) 0 0 with
        | Some columnCounter => pressTitleColumn E columnCounter s
        | None => Some s
        end
      else Some s
  | _ => Some s
  end.

Definition pressScrollArea (my : Z) (s : State) : option State :=
  barHeight ← getScrollbarHeight s;
  barY ← getScrollbarY s;
  if decide (my > barY ∧ my < barY + barHeight)
  then Some (set_mouseDragScrollbar true s)
  else
    offset ← scrollbarOffsetAt s my barHeight;
    Some (set_renderOffset (adjustRenderOffset s offset) s).

Definition pressItemArea (E : Env) (button : MouseButton)
    (modifiers : KeyboardModifiers) (my : Z) (s : State) : option State :=
  pressItemIndex ← idiv (renderOffset s + my - titleHeight s) (rowHeight s);
  if decide (pressItemIndex >= Z.of_nat (length (renderItems s))) then
    Some (if isKeepSelectWhenClickBlank s then s
          else clearSelections (clearLastSelection_default E) s)
  else
    match button with
    | LeftButton =>
        s ← (if negb (isSingleSelect s)
                && bool_decide (modifiers = ControlModifier) then
               item ← at_ (renderItems s) pressItemIndex;
               Some (if contains (selectionItems s) item
                     then set_selectionItems (removeOne item (selectionItems s)) s
                     else addSelections [item] (recordLastSelection_default E) s)
             else if negb (isSingleSelect s)
                     && bool_decide (modifiers = ShiftModifier)
                     && negb (bool_decide (selectionItems s = [])) then
               let lastSelectionIndex :=
                 indexOf (renderItems s) (lastSelectItem s) in
               let selectionStartIndex := Z.min pressItemIndex lastSelectionIndex in
               let selectionEndIndex := Z.max pressItemIndex lastSelectionIndex in
               Some (shiftSelectItemsWithBound selectionStartIndex selectionEndIndex s)
             else
               let s := clearSelections (clearLastSelection_default E) s in
               item ← at_ (renderItems s) pressItemIndex;
               Some (addSelections [item] (recordLastSelection_default E) s));
        _ ← at_ (renderItems s) pressItemIndex;
        Some s
    | RightButton =>
        pressItem ← at_ (renderItems s) pressItemIndex;
        Some (if contains (selectionItems s) pressItem then s
              else
                let s := clearSelections (clearLastSelection_default E) s in
                addSelections [pressItem] (recordLastSelection_default E) s)
    | OtherButton => Some s
    end.

Definition mousePressEvent (E : Env) (button : MouseButton)
    (modifiers : KeyboardModifiers) (mx my : Z) (s : State) : option State :=
  let atTitleArea := isMouseAtTitleArea s my in
  let atScrollArea := isMouseAtScrollArea s mx in
  if atTitleArea then pressTitleArea E button mx s
  else if atScrollArea then pressScrollArea my s
  else pressItemArea E button modifiers my s.

(** Only the scrollbar drag changes the modelled state; the other branches
    of [mouseMoveEvent] maintain the hover state. *)
Definition mouseMoveEvent (mx my : Z) (s : State) : option State :=
  if mouseDragScrollbar s then
    barHeight ← getScrollbarHeight s;
    offset ← scrollbarOffsetAt s my barHeight;
    Some (set_renderOffset (adjustRenderOffset s offset) s)
  else Some s.

Definition mouseReleaseEvent (mx my : Z) (s : State) : option State :=
  let s :=
    if mouseDragScrollbar s then set_mouseDragScrollbar false s
    else if decide (titlePressColumn s ≠ -1) then set_titlePressColumn (-1) s
    else s in
  _ ← idiv (renderOffset s + my - titleHeight s) (rowHeight s);
  Some s.

Definition wheelEvent (deltaY : Z) (s : State) : option State :=
  if decide (deltaY ≠ 0) then
    let s := set_oldRenderOffset (renderOffset s) s in
    let scrollStep := (of_int deltaY / 120)%float in
    offset ← to_int (of_int (renderOffset s) - scrollStep * of_int (scrollUnit s))%float;
    Some (set_renderOffset (adjustRenderOffset s offset) s)
  else Some s.

(** ** Painting *)

(** The row loop of [paintEvent]: the [rowCounter] of every row handed to
    [drawBackground] and [drawForeground], in painting order. *)
Fixpoint paintRows (s : State) (items : list ItemPtr)
    (rowCounter renderHeight : Z) : option (list Z) :=
  match items with
  | [] => Some []
  | _ :: rest =>
      firstRow ← idiv (renderOffset s) (rowHeight s);
      if decide (rowCounter >= firstRow) then
        let renderHeight := renderHeight + rowHeight s in
        if decide (renderHeight > height s) then Some [rowCounter]
        else
          rows ← paintRows s rest (rowCounter + 1) renderHeight;
          Some (rowCounter :: rows)
      else paintRows s rest (rowCounter + 1) renderHeight
  end.

Definition paintEvent (s : State) : option (list Z) :=
  let renderHeight := 0 in
  let renderHeight :=
    if decide (titleHeight s > 0) then renderHeight + titleHeight s
    else renderHeight in
  paintRows s (renderItems s) 0 renderHeight.

(** ** The view as a transition system *)




(** The constructor; [width] and [height] are the widget's size. *)
Definition DSimpleListView_new (w h : Z) : State :=
  {| config :=
       {| rowHeight := 36; scrollUnit := 0; titleHeight := 0;
          scrollbarMinHeight := 30; scrollbarDragWidth := 8;
          width := w; height := h;
          columnTitles := []; columnWidths := []; columnVisibles := [];
          isSingleSelect := false; isKeepSelectWhenClickBlank := false;
          searchAlgorithm := None; sortingAlgorithms := Some [] |};
     listItems := []; renderItems := []; selectionItems := [];
     lastSelectItem := nullptr; searchContent := "";
     sortingOrderes := []; defaultSortingColumn := 0;
     defaultSortingOrder := false; titlePressColumn := -1;
     mouseDragScrollbar := false; oldRenderOffset := 0; renderOffset := 0 |}.

(** ** The page indicator *)

Module PageIndicator.

Record DPageIndicatorPrivate : Set := {
  pageCount : Z;
  currentPage : Z
}.

Definition new : DPageIndicatorPrivate :=
  {| pageCount := 3; currentPage := 1 |}.

Definition setPageCount (count : Z) (d : DPageIndicatorPrivate)
    : DPageIndicatorPrivate :=
  {| pageCount := count; currentPage := currentPage d |}.

Definition nextPage (d : DPageIndicatorPrivate) : DPageIndicatorPrivate :=
  {| pageCount := pageCount d;
     currentPage :=
       if decide (pageCount d = 0) then 0
       else Z.rem (currentPage d + 1) (pageCount d) |}.

Definition previousPage (d : DPageIndicatorPrivate) : DPageIndicatorPrivate :=
  {| pageCount := pageCount d;
     currentPage :=
       (if decide (currentPage d ≠ 0) then currentPage d else pageCount d) - 1 |}.

Definition setCurrentPage (index : Z) (d : DPageIndicatorPrivate)
    : DPageIndicatorPrivate :=
  if decide (index < -1 ∨ index >= pageCount d) then d
  else {| pageCount := pageCount d; currentPage := index |}.

End PageIndicator.

(** ** Specification vocabulary *)

(** The clamp of the scroll position. *)
Definition offsetClamped (s : State) : Prop :=
  0 <= renderOffset s
       <= Z.max 0 (getItemsTotalHeight s - getScrollAreaHeight s).

(** What [std::sort] asks of its comparator. *)
Record StrictWeakOrder (lt : ItemPtr -> ItemPtr -> bool) : Prop := {
  swo_irrefl : forall a, lt a a = false;
  swo_trans : forall a b c, lt a b = true -> lt b c = true -> lt a c = true;
  swo_incomparable :
    forall a b c,
      lt a b = false -> lt b a = false -> lt b c = false -> lt c b = false ->
      lt a c = false /\ lt c a = false
}.

(** A comparator without ties between distinct items. *)
Record StrictTotalOrder (lt : ItemPtr -> ItemPtr -> bool) : Prop := {
  sto_weak : StrictWeakOrder lt;
  sto_total : forall a b, a ≠ b -> lt a b = true \/ lt b a = true
}.

(** [a] may stand before [b] in a range sorted by [lt]. *)
Definition notAfter (lt : ItemPtr -> ItemPtr -> bool) : relation ItemPtr :=
  fun a b => lt b a = false.

(** What [std::sort] promises in return: the range is rearranged, and no
    element is ordered before one that precedes it. *)
Record StdSortSpec (E : Env) : Prop := {
  std_sort_perm :
    forall lt l, StrictWeakOrder lt -> std_sort E lt l ≡ₚ l;
  std_sort_sorted :
    forall lt l, StrictWeakOrder lt ->
                 StronglySorted (notAfter lt) (std_sort E lt l)
}.

(** Every registered comparator is a valid argument of [std::sort], for both
    values of the order flag. *)
Definition comparatorsValid (s : State) : Prop :=
  forall algs algorithm descendingSort,
    sortingAlgorithms s = Some algs -> algorithm ∈ algs ->
    StrictWeakOrder (fun a b => algorithm a b descendingSort).

(** ** A reference environment and sample data *)

Global Instance notAfter_dec lt a b : Decision (notAfter lt a b).
Proof. unfold notAfter. apply _. Defined.

(** One admissible [std::sort]. *)
Definition refSort (lt : ItemPtr -> ItemPtr -> bool) (l : list ItemPtr)
    : list ItemPtr :=
  merge_sort (notAfter lt) l.

Definition refEnv : Env :=
  {| sameAs := fun a b => bool_decide (a = b);
     std_sort := refSort;
     renderTitleWidth := fun title => 8 * Z.of_nat (String.length title) + 30;
     clearLastSelection_default := true;
     recordLastSelection_default := true |}.

(** A comparator on the addresses themselves. *)
Definition byAddress : SortAlgorithm :=
  fun item1 item2 descendingSort =>
    if descendingSort then (item2 <? item1)%nat else (item1 <? item2)%nat.

(** A search algorithm that keeps every item. *)
Definition matchAll : SearchAlgorithm := fun _ _ => true.

(** A fresh view of the given size after [setRowHeight] and [addItems]. *)
Definition sampleView (w h rowH : Z) (rows : list ItemPtr) : State :=
  set_renderItems rows
    (set_listItems rows (setRowHeight rowH (DSimpleListView_new w h))).

(** A configuration with one title column and the comparators [algs]. *)
Definition titledConfig (algs : list SortAlgorithm) : Config :=
  {| rowHeight := 20; scrollUnit := 20; titleHeight := 30;
     scrollbarMinHeight := 30; scrollbarDragWidth := 8;
     width := 200; height := 130;
     columnTitles := ["Name"]; columnWidths := [-1];
     columnVisibles := [true];
     isSingleSelect := false; isKeepSelectWhenClickBlank := false;
     searchAlgorithm := Some matchAll;
     sortingAlgorithms := Some algs |}.

(** A view with one title column, the sort column, sorted by [byAddress]. *)
Definition sortedView (rows render : list ItemPtr) (order : bool) : State :=
  {| config := titledConfig [byAddress];
     listItems := rows; renderItems := render; selectionItems := [];
     lastSelectItem := nullptr; searchContent := "";
     sortingOrderes := [order]; defaultSortingColumn := 0;
     defaultSortingOrder := order; titlePressColumn := -1;
     mouseDragScrollbar := false; oldRenderOffset := 0; renderOffset := 0 |}.

(** The same with two comparators for its one column. *)
Definition mismatchedView : State :=
  set_sortingOrderes [false; false]
    (set_config (titledConfig [byAddress; byAddress])
       (sortedView [2; 1]%nat [2; 1]%nat false)).

(** Fifty rows of 20px in a viewport of 100px, without a title. *)
Definition fiftyRows : State := sampleView 200 100 20 (seq 1 50).


(** Three rows, the second one selected. *)
Definition threeRows : State :=
  addSelections [2%nat] true (sampleView 200 100 20 [1; 2; 3]%nat).

(** Ten rows of the default height (36px) in a viewport of 100px, and the
    same scrolled down by one page. *)
Definition tenRows : State := sampleView 200 100 36 (seq 1 10).
Definition scrolledRows : State := set_renderOffset 100 tenRows.

(** The rows the visible-slice formula names: from
    [floor (renderOffset / rowHeight)] to
    [floor ((renderOffset + viewportHeight) / rowHeight)], within the valid
    indices. *)
Definition visibleSlice (s : State) : list Z :=
  let first := Z.max 0 (renderOffset s `div` rowHeight s) in
  let last :=
    Z.min (Z.of_nat (length (renderItems s)) - 1)
          ((renderOffset s + getScrollAreaHeight s) `div` rowHeight s) in
  seqZ first (last - first + 1).


(** [s'] has the configuration of [s] and either a clamped offset or the very
    rows and offset of [s]. *)
Definition scrollStep (s s' : State) : Prop :=
  config s' = config s
  /\ (offsetClamped s'
      \/ (length (renderItems s') = length (renderItems s)
          /\ renderOffset s' = renderOffset s)).

(** The number of rows the loop of [paintEvent] hands out once it has
    started, [renderHeight] being the height accounted for so far. *)
Definition rowsPainted (s : State) (renderHeight : Z) : Z :=
  Z.max 1 ((height s - renderHeight) `div` rowHeight s + 1).


(** ** Vocabulary and sample views of the further properties *)

(** Where column [column] starts when the columns of [renderWidths] are laid
    out from the left edge: a column of width [0] or less takes no room. *)
Definition columnLeft (renderWidths : list Z) (column : nat) : Z :=
  foldr (fun renderWidth x => Z.max 0 renderWidth + x) 0
        (take column renderWidths).

(** One title column, no comparator registered yet. *)
Definition titledView : State :=
  set_config (titledConfig []) (DSimpleListView_new 200 130).

(** Three rows in single-selection mode, the second one selected. *)
Definition singleSelectRows : State := setSingleSelect true threeRows.

(** Five rows, the second and the third one selected by a click on the
    second and a click with Shift on the third. *)
Definition twoOfFive : State :=
  set_lastSelectItem 2%nat
    (set_selectionItems [2; 3]%nat (sampleView 200 100 20 [1; 2; 3; 4; 5]%nat)).

(** ** Painting the page indicator *)

Module DPageIndicator.

(** The members of [DPageIndicatorPrivate] and the widget rectangle that
    [paintEvent] reads besides the page count and the current page. *)
Record Look : Set := {
  w : Z;
  h : Z;
  pointDistance : Z;
  pointRadius : Z;
  secondaryPointRadius : Z
}.

(** One [drawEllipse] call: whether the brush is the colour of the current
    page, the centre and the radius (the same in both directions). *)
Record Ellipse : Set := {
  currentBrush : bool;
  centerX : Z;
  centerY : Z;
  radius : Z
}.

Definition drawPoint (L : Look) (d : PageIndicator.DPageIndicatorPrivate)
    (offsetX offsetY i : Z) : Ellipse :=
  if decide (PageIndicator.currentPage d = i) then
    {| currentBrush := true;
       centerX := offsetX + (Z.quot (pointDistance L) 2 + pointDistance L * i);
       centerY := offsetY + 0;
       radius := pointRadius L |}
  else
    {| currentBrush := false;
       centerX := offsetX + (Z.quot (pointDistance L) 2 + pointDistance L * i);
       centerY := offsetY + 0;
       radius := secondaryPointRadius L |}.

(** The loop [for (int i(0); i != d->pageCount; ++i)], from [i] on; [None]
    when [fuel] rounds do not bring it to its end. *)
Fixpoint paintPoints (fuel : nat) (L : Look)
    (d : PageIndicator.DPageIndicatorPrivate) (offsetX offsetY i : Z)
    : option (list Ellipse) :=
  match fuel with
  | O => None
  | S fuel =>
      if decide (i ≠ PageIndicator.pageCount d) then
        rest ← paintPoints fuel L d offsetX offsetY (i + 1);
        Some (drawPoint L d offsetX offsetY i :: rest)
      else Some []
  end.

Definition paintEvent (fuel : nat) (L : Look)
    (d : PageIndicator.DPageIndicatorPrivate) : option (list Ellipse) :=
  let total_w := PageIndicator.pageCount d * pointDistance L in
  let offsetX := Z.quot (w L - total_w) 2 in
  let offsetY := Z.quot (h L) 2 in
  paintPoints fuel L d offsetX offsetY 0.

End DPageIndicator.

(** * Properties *)

(** ** Reasoning support *)

Ltac unfold_geometry :=
  unfold offsetClamped, adjustRenderOffset, getBottomRenderOffset,
    getTopRenderOffset, getItemsTotalHeight, getScrollAreaHeight in *.

(** Closes a clamp goal once the state is spelled out in member assignments. *)
Ltac solve_clamped :=
  unfold_geometry; simpl in *; repeat case_decide; lia.

(** Runs through the branches of a handler. *)
Ltac handler_cases :=
  repeat (first [ progress simplify_option_eq | case_match | case_decide
                | progress simpl in * ]).

(** ** The sample views are views the calls produce *)

Lemma fiftyRows_reached :
  addItems refEnv (seq 1 50) (setRowHeight 20 (DSimpleListView_new 200 100))
  = Some fiftyRows.
Proof. reflexivity. Qed.

Lemma tenRows_reached :
  addItems refEnv (seq 1 10) (DSimpleListView_new 200 100) = Some tenRows.
Proof. reflexivity. Qed.

Lemma threeRows_reached :
  (s ← addItems refEnv [1; 2; 3]%nat (setRowHeight 20 (DSimpleListView_new 200 100));
   mousePressEvent refEnv LeftButton NoModifier 10 30 s)
  = Some threeRows.
Proof. reflexivity. Qed.

Lemma sortedView_reached :
  (s ← setColumnTitleInfo refEnv ["Name"] [-1] 30 (DSimpleListView_new 200 130);
   s ← setColumnHideFlags [true] 0 s;
   let s := setColumnSortingAlgorithms (Some [byAddress]) 0 false s in
   let s := setSearchAlgorithm (Some matchAll) s in
   addItems refEnv [2; 1]%nat (setRowHeight 20 s))
  = Some (sortedView [2; 1]%nat [1; 2]%nat false).
Proof. reflexivity. Qed.

Lemma mismatchedView_reached :
  (s ← setColumnTitleInfo refEnv ["Name"] [-1] 30 (DSimpleListView_new 200 130);
   s ← setColumnHideFlags [true] 0 s;
   let s := setColumnSortingAlgorithms (Some [byAddress; byAddress]) 0 false s in
   let s := setSearchAlgorithm (Some matchAll) s in
   addItems refEnv [2; 1]%nat (setRowHeight 20 s))
  = Some mismatchedView.
Proof. reflexivity. Qed.

(** ** The scroll position *)


Lemma scrollStep_refl s : scrollStep s s.
Proof. split; [done|]. right. done. Qed.

Create HintDb scroll.
#[local] Hint Resolve scrollStep_refl : scroll.

Ltac scroll_step :=
  split; [done | first [ right; done | left; solve_clamped ]].

Lemma selectFirstItem_scrollStep E s : scrollStep s (selectFirstItem E s).
Proof. unfold selectFirstItem, addSelections, clearSelections. handler_cases; scroll_step. Qed.

Lemma selectLastItem_scrollStep E s : scrollStep s (selectLastItem E s).
Proof. unfold selectLastItem, addSelections, clearSelections. handler_cases; scroll_step. Qed.

Lemma selectAllItems_scrollStep E s : scrollStep s (selectAllItems E s).
Proof. unfold selectAllItems, addSelections, clearSelections. handler_cases; scroll_step. Qed.

Lemma shiftSelectItemsWithBound_frame a b s :
  config (shiftSelectItemsWithBound a b s) = config s
  /\ renderItems (shiftSelectItemsWithBound a b s) = renderItems s
  /\ renderOffset (shiftSelectItemsWithBound a b s) = renderOffset s.
Proof. unfold shiftSelectItemsWithBound, addSelections, clearSelections. handler_cases; done. Qed.

Lemma shiftSelectToEnd_scrollStep E s : scrollStep s (shiftSelectToEnd E s).
Proof.
  unfold shiftSelectToEnd. repeat case_match; auto using selectLastItem_scrollStep with scroll.
  destruct (shiftSelectItemsWithBound_frame
              (indexOf (renderItems s) (lastSelectItem s))
              (Z.of_nat (length (renderItems s)) - 1) s) as (Hc & Hr & Ho).
  split; [done|]. left. unfold_geometry. simpl. rewrite Hc, Hr.
  repeat case_decide; lia.
Qed.

Lemma shiftSelectToHome_scrollStep E s : scrollStep s (shiftSelectToHome E s).
Proof.
  unfold shiftSelectToHome. repeat case_match; auto using selectFirstItem_scrollStep with scroll.
  destruct (shiftSelectItemsWithBound_frame 0
              (indexOf (renderItems s) (lastSelectItem s)) s) as (Hc & Hr & Ho).
  split; [done|]. left. unfold_geometry. simpl. rewrite Hc, Hr. lia.
Qed.

Lemma selectNextItemWithOffset_scrollStep E n s s' :
  selectNextItemWithOffset E n s = Some s' -> scrollStep s s'.
Proof.
  unfold selectNextItemWithOffset. intros H. case_decide.
  - simplify_eq. unfold selectFirstItem, addSelections, clearSelections.
    handler_cases; scroll_step.
  - unfold addSelections, clearSelections in H. handler_cases; scroll_step.
Qed.

Lemma selectPrevItemWithOffset_scrollStep E n s s' :
  selectPrevItemWithOffset E n s = Some s' -> scrollStep s s'.
Proof.
  unfold selectPrevItemWithOffset. intros H. case_decide.
  - simplify_eq. unfold selectFirstItem, addSelections, clearSelections.
    handler_cases; scroll_step.
  - unfold addSelections, clearSelections in H. handler_cases; scroll_step.
Qed.

Lemma shiftSelectNextItemWithOffset_scrollStep E n s s' :
  shiftSelectNextItemWithOffset E n s = Some s' -> scrollStep s s'.
Proof.
  unfold shiftSelectNextItemWithOffset. intros H. case_decide.
  - simplify_eq. unfold selectFirstItem, addSelections, clearSelections.
    handler_cases; scroll_step.
  - unfold shiftSelectItemsWithBound, addSelections, clearSelections in H.
    handler_cases; scroll_step.
Qed.

Lemma shiftSelectPrevItemWithOffset_scrollStep E n s s' :
  shiftSelectPrevItemWithOffset E n s = Some s' -> scrollStep s s'.
Proof.
  unfold shiftSelectPrevItemWithOffset. intros H. case_decide.
  - simplify_eq. unfold selectFirstItem, addSelections, clearSelections.
    handler_cases; scroll_step.
  - unfold shiftSelectItemsWithBound, addSelections, clearSelections in H.
    handler_cases; scroll_step.
Qed.

#[local] Hint Resolve selectFirstItem_scrollStep selectLastItem_scrollStep
  selectAllItems_scrollStep shiftSelectToEnd_scrollStep
  shiftSelectToHome_scrollStep selectNextItemWithOffset_scrollStep
  selectPrevItemWithOffset_scrollStep shiftSelectNextItemWithOffset_scrollStep
  shiftSelectPrevItemWithOffset_scrollStep : scroll.

Lemma keyPressEvent_scrollStep E key modifiers s s' :
  keyPressEvent E key modifiers s = Some s' -> scrollStep s s'.
Proof.
  unfold keyPressEvent, selectPrevItem, selectNextItem, shiftSelectToPrev,
    shiftSelectToNext, shiftSelectPageUp, shiftSelectPageDown, scrollPageUp,
    scrollPageDown.
  intros H.
  destruct key, modifiers; simplify_option_eq; eauto with scroll;
    try (repeat case_match; simplify_option_eq; eauto with scroll; fail);
    unfold ctrlScrollToHome, ctrlScrollToEnd, ctrlScrollPageUp, ctrlScrollPageDown;
    scroll_step.
Qed.

Lemma wheelEvent_scrollStep deltaY s s' :
  wheelEvent deltaY s = Some s' -> scrollStep s s'.
Proof. unfold wheelEvent. intros H. handler_cases; scroll_step. Qed.

Lemma pressScrollArea_scrollStep my s s' :
  pressScrollArea my s = Some s' -> scrollStep s s'.
Proof. unfold pressScrollArea. intros H. handler_cases; scroll_step. Qed.

Lemma mouseMoveEvent_scrollStep mx my s s' :
  mouseMoveEvent mx my s = Some s' -> scrollStep s s'.
Proof. unfold mouseMoveEvent. intros H. handler_cases; scroll_step. Qed.

Lemma mouseReleaseEvent_scrollStep mx my s s' :
  mouseReleaseEvent mx my s = Some s' -> scrollStep s s'.
Proof. unfold mouseReleaseEvent. intros H. handler_cases; scroll_step. Qed.

Lemma refreshItems_scrollStep E items s s' :
  refreshItems E items s = Some s' -> scrollStep s s'.
Proof.
  unfold refreshItems, sortItemsByColumn, clearItems, addSelections, clearSelections.
  intros H. handler_cases; scroll_step.
Qed.



#[local] Hint Resolve keyPressEvent_scrollStep wheelEvent_scrollStep
  pressScrollArea_scrollStep mouseMoveEvent_scrollStep
  mouseReleaseEvent_scrollStep refreshItems_scrollStep : scroll.



Lemma DSimpleListView_new_clamped w h : offsetClamped (DSimpleListView_new w h).
Proof. unfold offsetClamped. simpl. lia. Qed.

(** [clearItems] is no scroll operation: it empties the rows and leaves the
    offset where it was. *)
Lemma clearItems_keeps_offset :
  renderOffset (clearItems (set_renderOffset 900 fiftyRows)) = 900
  /\ getBottomRenderOffset (clearItems (set_renderOffset 900 fiftyRows)) = 0.
Proof. split; reflexivity. Qed.


(** ** Removal and selection *)

Lemma removeItem_members item s :
  item ≠ nullptr ->
  listItems (removeItem item s) = removeOne item (listItems s)
  /\ renderItems (removeItem item s) = removeOne item (renderItems s)
  /\ selectionItems (removeItem item s) = selectionItems s
  /\ lastSelectItem (removeItem item s) = lastSelectItem s.
Proof. unfold removeItem. intros Hn. handler_cases; done. Qed.

(** C2, as the code has it.  [removeItem x], for an item [x] of the
    selection, drops the first occurrence of [x] from [listItems] and from
    [renderItems] and leaves [selectionItems] as it was: [x] stays selected,
    and so does every other selected item. *)
Theorem removeItem_keeps_selection (s : State) (x : ItemPtr) :
  x ∈ selectionItems s -> x ≠ nullptr ->
  listItems (removeItem x s) = removeOne x (listItems s)
  /\ renderItems (removeItem x s) = removeOne x (renderItems s)
  /\ selectionItems (removeItem x s) = selectionItems s
  /\ x ∈ selectionItems (removeItem x s).
Proof.
  intros Hx Hn. destruct (removeItem_members x s Hn) as (Hl & Hr & Hsel & _).
  rewrite Hsel. done.
Qed.

Lemma removeItem_keeps_selection_witness :
  listItems (removeItem 2%nat threeRows) = [1; 3]%nat
  /\ renderItems (removeItem 2%nat threeRows) = [1; 3]%nat
  /\ selectionItems (removeItem 2%nat threeRows) = [2%nat]
  /\ 2%nat ∈ selectionItems (removeItem 2%nat threeRows).
Proof.
  apply (removeItem_keeps_selection threeRows 2%nat).
  - simpl. apply list_elem_of_here.
  - discriminate.
Defined.

(** The selected row 2 is gone from the rows after [removeItem] and is
    still in the selection. *)
Lemma removeItem_selection_counterexample :
  2%nat ∈ selectionItems threeRows
  /\ ~ (2%nat ∈ renderItems (removeItem 2%nat threeRows))
  /\ 2%nat ∈ selectionItems (removeItem 2%nat threeRows).
Proof.
  split; [|split].
  - simpl. apply list_elem_of_here.
  - vm_compute. intros H. apply list_elem_of_In in H. simpl in H. intuition discriminate.
  - simpl. apply list_elem_of_here.
Qed.

(** ** Search *)

(** C4.  With a search string in force, [search ""] makes [renderItems] the
    very list [listItems], which only [addItems], [removeItem] and
    [refreshItems] ever touch: insertion order, whatever the sort column. *)
Theorem search_empty_restores_listItems (s : State) :
  searchContent s ≠ "" ->
  renderItems (search "" s) = listItems s
  /\ listItems (search "" s) = listItems s
  /\ searchContent (search "" s) = "".
Proof.
  intros Hs. unfold search. case_decide as Hd.
  - done.
  - destruct Hd. split; [done|]. congruence.
Qed.

Lemma search_empty_restores_listItems_witness :
  renderItems (search "" (set_searchContent "a" (sortedView [2; 1]%nat [1; 2]%nat false)))
  = [2; 1]%nat
  /\ listItems (search "" (set_searchContent "a" (sortedView [2; 1]%nat [1; 2]%nat false)))
     = [2; 1]%nat
  /\ searchContent (search "" (set_searchContent "a" (sortedView [2; 1]%nat [1; 2]%nat false)))
     = "".
Proof.
  apply (search_empty_restores_listItems
           (set_searchContent "a" (sortedView [2; 1]%nat [1; 2]%nat false))).
  simpl. discriminate.
Defined.

(** ** The empty cases of [selectNextItem] *)

(** C7.  Without a selection [selectNextItem] is defined.  Without rows it
    changes nothing but the offset remembered for the scrollbar display, and
    the selection stays empty; with rows it selects the first row and scrolls
    to the top. *)
Theorem selectNextItem_without_selection (E : Env) (s : State) :
  selectionItems s = [] ->
  exists s',
    selectNextItem E s = Some s'
    /\ renderItems s' = renderItems s
    /\ listItems s' = listItems s
    /\ match renderItems s with
       | [] => s' = set_oldRenderOffset (renderOffset s) s
               /\ selectionItems s' = []
       | first :: _ => selectionItems s' = [first] /\ renderOffset s' = 0
       end.
Proof.
  intros Hsel. unfold selectNextItem, selectNextItemWithOffset. simpl.
  rewrite Hsel. simpl. eexists. split; [done|].
  unfold selectFirstItem, addSelections, clearSelections. simpl.
  destruct (renderItems s) as [|first rest] eqn:Hr; simpl; [done|].
  destruct (clearLastSelection_default E), (recordLastSelection_default E);
    simpl; done.
Qed.

Lemma selectNextItem_without_selection_witness :
  (exists s',
     selectNextItem refEnv (DSimpleListView_new 200 100) = Some s'
     /\ renderItems s' = []
     /\ listItems s' = []
     /\ s' = set_oldRenderOffset 0 (DSimpleListView_new 200 100)
     /\ selectionItems s' = [])
  /\ (exists s',
        selectNextItem refEnv fiftyRows = Some s'
        /\ renderItems s' = renderItems fiftyRows
        /\ listItems s' = listItems fiftyRows
        /\ selectionItems s' = [1%nat]
        /\ renderOffset s' = 0).
Proof.
  split.
  - apply (selectNextItem_without_selection refEnv (DSimpleListView_new 200 100)).
    reflexivity.
  - apply (selectNextItem_without_selection refEnv fiftyRows). reflexivity.
Defined.

(** A selection that outlives its rows makes [selectNextItem] index
    [renderItems] at [-1]. *)
Lemma selectNextItem_stale_selection :
  selectNextItem refEnv
    (addSelections [1%nat] true (DSimpleListView_new 200 100)) = None.
Proof. reflexivity. Qed.

(** ** Scrollbar *)

Lemma mousePressEvent_scroll_area E button modifiers mx my (s : State) :
  isMouseAtTitleArea s my = false -> isMouseAtScrollArea s mx = true ->
  mousePressEvent E button modifiers mx my s = pressScrollArea my s.
Proof. unfold mousePressEvent. intros -> ->. done. Qed.

(** C6, as the code has it.  Viewport 100px, rows of 20px, 50 rows, the
    default minimal thumb of 30px: a press on the scrollbar track at
    [y = 65], outside the thumb, has
    [(65 - 30 / 2 - 0) / 100 = 0.5] and sets [renderOffset] to
    [0.5 * 1000 = 500], within the clamp [0 .. 900]. *)
Theorem track_click_half_way (E : Env) (s : State) (button : MouseButton)
    (modifiers : KeyboardModifiers) (mx barY : Z) :
  length (renderItems s) = 50%nat -> rowHeight s = 20 -> height s = 100 ->
  titleHeight s = 0 -> scrollbarMinHeight s = 30 ->
  isMouseAtScrollArea s mx = true ->
  getScrollbarY s = Some barY -> ~ (65 > barY /\ 65 < barY + 30) ->
  getScrollbarHeight s = Some 30
  /\ getBottomRenderOffset s = 900
  /\ exists s',
       mousePressEvent E button modifiers mx 65 s = Some s'
       /\ renderOffset s' = 500.
Proof.
  intros Hlen Hrow Hh Ht Hmin Hmx HbarY Hthumb.
  assert (getScrollbarHeight s = Some 30) as Hbar.
  { unfold getScrollbarHeight, getScrollAreaHeight, getItemsTotalHeight.
    rewrite Hlen, Hrow, Hh, Ht, Hmin. vm_compute. reflexivity. }
  assert (getBottomRenderOffset s = 900) as Hbottom.
  { unfold getBottomRenderOffset, getItemsTotalHeight.
    rewrite Hlen, Hrow, Hh, Ht. reflexivity. }
  assert (scrollbarOffsetAt s 65 30 = Some 500) as Hoff.
  { unfold scrollbarOffsetAt, getScrollAreaHeight, getItemsTotalHeight.
    rewrite Hlen, Hrow, Hh, Ht. vm_compute. reflexivity. }
  split; [done|]. split; [done|].
  rewrite mousePressEvent_scroll_area; [|unfold isMouseAtTitleArea; rewrite Ht; done|done].
  unfold pressScrollArea. rewrite Hbar, HbarY. simpl.
  case_decide; [done|]. rewrite Hoff. simpl. eexists. split; [done|].
  simpl. unfold adjustRenderOffset. rewrite Hbottom. reflexivity.
Qed.

Lemma track_click_half_way_witness :
  getScrollbarHeight fiftyRows = Some 30
  /\ getBottomRenderOffset fiftyRows = 900
  /\ exists s',
       mousePressEvent refEnv LeftButton NoModifier 195 65 fiftyRows = Some s'
       /\ renderOffset s' = 500.
Proof.
  apply (track_click_half_way refEnv fiftyRows LeftButton NoModifier 195 0).
  - reflexivity.
  - reflexivity.
  - reflexivity.
  - reflexivity.
  - reflexivity.
  - reflexivity.
  - vm_compute. reflexivity.
  - lia.
Defined.

(** The press lands at 500, not at [0.5 * (1000 - 100) = 450]. *)
Lemma track_click_counterexample :
  renderOffset <$> mousePressEvent refEnv LeftButton NoModifier 195 65 fiftyRows
  = Some 500
  /\ 500 ≠ 450.
Proof. split; [vm_compute; reflexivity | lia]. Qed.

(** ** Painting *)

(** C3, at a failing input.  Ten rows of 36px in a viewport of 100px,
    scrolled down by one page with Ctrl+PageDown, to offset 100: the formula
    names rows 2 to 5, and row 5 starts 80px below the top of the viewport,
    inside it; [paintEvent] stops after rows 2, 3 and 4. *)
Theorem paintEvent_skips_partly_visible_row :
  keyPressEvent refEnv Key_PageDown ControlModifier tenRows = Some scrolledRows
  /\ paintEvent scrolledRows = Some [2; 3; 4]
  /\ visibleSlice scrolledRows = [2; 3; 4; 5]
  /\ titleHeight scrolledRows + 5 * rowHeight scrolledRows
       - renderOffset scrolledRows = 80
  /\ 80 < height scrolledRows.
Proof. repeat split. Qed.


Lemma paintRows_painting (s : State) items rowCounter renderHeight :
  0 < rowHeight s -> 0 <= renderOffset s ->
  renderOffset s `div` rowHeight s <= rowCounter ->
  paintRows s items rowCounter renderHeight
  = Some (seqZ rowCounter
            (Z.min (Z.of_nat (length items)) (rowsPainted s renderHeight))).
Proof.
  intros Hrow Hoff. revert rowCounter renderHeight.
  induction items as [|item rest IH]; intros rowCounter renderHeight Hfirst.
  - simpl. rewrite seqZ_nil; [done|]. unfold rowsPainted. lia.
  - simpl. unfold idiv.
    destruct (decide (rowHeight s = 0)) as [?|_]; [lia|]. simpl.
    rewrite Z.quot_div_nonneg by lia.
    destruct (decide (rowCounter >= renderOffset s `div` rowHeight s)); [|lia].
    unfold rowsPainted in *.
    case_decide as Hfull.
    + assert ((height s - renderHeight) `div` rowHeight s <= 0).
      { apply Z.lt_succ_r, Z.div_lt_upper_bound; lia. }
      rewrite seqZ_cons by lia. rewrite seqZ_nil by lia. done.
    + rewrite IH by lia. simpl.
      replace (height s - (renderHeight + rowHeight s))
        with (height s - renderHeight + (-1) * rowHeight s) by lia.
      rewrite Z.div_add by lia.
      assert (1 <= (height s - renderHeight) `div` rowHeight s).
      { apply Z.div_le_lower_bound; lia. }
      rewrite (seqZ_cons rowCounter) by lia.
      do 2 f_equal. f_equal; lia.
Qed.

Lemma paintRows_skipping (s : State) items rowCounter renderHeight :
  0 < rowHeight s -> 0 <= renderOffset s ->
  rowCounter <= renderOffset s `div` rowHeight s ->
  paintRows s items rowCounter renderHeight
  = paintRows s
      (drop (Z.to_nat (renderOffset s `div` rowHeight s - rowCounter)) items)
      (Z.max rowCounter
         (Z.min (renderOffset s `div` rowHeight s)
                (rowCounter + Z.of_nat (length items))))
      renderHeight.
Proof.
  intros Hrow Hoff. revert rowCounter.
  induction items as [|item rest IH]; intros rowCounter Hfirst.
  - rewrite drop_nil. done.
  - destruct (decide (rowCounter = renderOffset s `div` rowHeight s)) as [->|Hne].
    + rewrite Z.sub_diag. change (Z.to_nat 0) with 0%nat. rewrite drop_0.
      f_equal. rewrite length_cons. lia.
    + simpl. unfold idiv.
    destruct (decide (rowHeight s = 0)) as [?|_]; [lia|]. simpl.
      rewrite Z.quot_div_nonneg by lia.
      destruct (decide (rowCounter >= renderOffset s `div` rowHeight s)); [lia|].
      rewrite IH by lia.
      replace (Z.to_nat (renderOffset s `div` rowHeight s - rowCounter))
        with (S (Z.to_nat (renderOffset s `div` rowHeight s - (rowCounter + 1))))
        by lia.
      simpl. f_equal. lia.
Qed.

(** What [paintEvent] paints: from row [floor (renderOffset / rowHeight)] on,
    [floor (viewportHeight / rowHeight) + 1] rows, as far as there are rows. *)
Lemma paintEvent_rows (s : State) :
  0 < rowHeight s -> 0 <= renderOffset s -> 0 <= titleHeight s <= height s ->
  paintEvent s
  = Some (seqZ (renderOffset s `div` rowHeight s)
            (Z.min (Z.of_nat (length (renderItems s))
                    - renderOffset s `div` rowHeight s)
                   (getScrollAreaHeight s `div` rowHeight s + 1))).
Proof.
  intros Hrow Hoff Htitle. unfold paintEvent.
  assert (0 <= renderOffset s `div` rowHeight s) by (apply Z.div_pos; lia).
  rewrite paintRows_skipping by lia.
  set (first := renderOffset s `div` rowHeight s) in *.
  destruct (decide (first <= Z.of_nat (length (renderItems s)))) as [Hle|Hgt].
  - rewrite paintRows_painting by (fold first; lia).
    rewrite length_drop. unfold rowsPainted, getScrollAreaHeight.
    assert (0 <= (height s - titleHeight s) `div` rowHeight s)
      by (apply Z.div_pos; lia).
    replace (if decide (titleHeight s > 0) then 0 + titleHeight s else 0)
      with (titleHeight s) by (case_decide; lia).
    do 2 f_equal; lia.
  - rewrite drop_ge by lia. simpl. rewrite seqZ_nil; [done|].
    unfold getScrollAreaHeight. lia.
Qed.

(** The rows [paintEvent] paints are rows of the visible slice; the last row
    of the slice is left out when the offset within the first row and the
    rest of the viewport height add up to a row or more. *)
Lemma paintEvent_within_visibleSlice (s : State) rows row :
  0 < rowHeight s -> 0 <= renderOffset s -> 0 <= titleHeight s <= height s ->
  paintEvent s = Some rows -> row ∈ rows -> row ∈ visibleSlice s.
Proof.
  intros Hrow Hoff Htitle Hpaint Hin.
  rewrite paintEvent_rows in Hpaint by done. simplify_eq.
  unfold visibleSlice. rewrite elem_of_seqZ in *.
  assert (0 <= renderOffset s `div` rowHeight s) by (apply Z.div_pos; lia).
  assert (renderOffset s `div` rowHeight s
          + getScrollAreaHeight s `div` rowHeight s
          <= (renderOffset s + getScrollAreaHeight s) `div` rowHeight s).
  { apply Z.div_le_lower_bound; [lia|].
    pose proof (Z.mul_div_le (renderOffset s) (rowHeight s)).
    pose proof (Z.mul_div_le (getScrollAreaHeight s) (rowHeight s)). lia. }
  lia.
Qed.
(** ** Out-of-range requests *)

Lemma pressTitleArea_not_ready E button mx (s : State) algs :
  sortingAlgorithms s = Some algs -> ~ sortingReady s algs ->
  pressTitleArea E button mx s = Some s.
Proof.
  intros Ha Hn. unfold pressTitleArea. destruct button; [|done..].
  rewrite Ha. simpl. case_decide; done.
Qed.

(** C8.  [setCurrentPage] with an index below [-1] or not below [pageCount]
    returns the indicator as it was; a sort request, by call or by a click on
    the title, with a number of comparators other than the number of columns
    returns the view as it was. *)
Theorem out_of_range_request_ignored (d : PageIndicator.DPageIndicatorPrivate)
    (index : Z) (E : Env) (s : State) (algs : list SortAlgorithm) (column : Z)
    (descendingSort : bool) (button : MouseButton) (mx : Z) :
  index < -1 \/ index >= PageIndicator.pageCount d ->
  sortingAlgorithms s = Some algs ->
  length algs ≠ length (columnTitles s) ->
  PageIndicator.setCurrentPage index d = d
  /\ sortItemsByColumn E column descendingSort s = Some s
  /\ pressTitleArea E button mx s = Some s.
Proof.
  intros Hi Ha Hl. split; [|split].
  - unfold PageIndicator.setCurrentPage. case_decide; done.
  - unfold sortItemsByColumn. rewrite Ha. simpl. case_decide as Hr; [|done].
    destruct Hr as (_ & ? & _). done.
  - apply (pressTitleArea_not_ready _ _ _ _ algs); [done|].
    intros (_ & ? & _). done.
Qed.

Lemma out_of_range_request_ignored_witness :
  PageIndicator.setCurrentPage 3 PageIndicator.new = PageIndicator.new
  /\ sortItemsByColumn refEnv 0 true mismatchedView = Some mismatchedView
  /\ pressTitleArea refEnv LeftButton 10 mismatchedView = Some mismatchedView.
Proof.
  apply (out_of_range_request_ignored PageIndicator.new 3 refEnv mismatchedView
           [byAddress; byAddress] 0 true LeftButton 10).
  - right. simpl. lia.
  - reflexivity.
  - simpl. lia.
Defined.

(** The guard compares counts; the sort column itself is not checked
    against the comparator list. *)
Lemma sortItemsByColumn_unchecked_column :
  sortItemsByColumn refEnv 5 false (sortedView [2; 1]%nat [2; 1]%nat false)
  = None.
Proof. reflexivity. Qed.



(** ** Sorting *)

Section comparator.
Variable lt : ItemPtr -> ItemPtr -> bool.
Hypothesis Hlt : StrictWeakOrder lt.

Lemma swo_asym a b : lt a b = true -> lt b a = false.
Proof.
  intros Hab. destruct (lt b a) eqn:Hba; [|done].
  pose proof (swo_trans _ Hlt _ _ _ Hab Hba) as Haa.
  rewrite (swo_irrefl _ Hlt) in Haa. done.
Qed.

Lemma notAfter_total : Total (notAfter lt).
Proof.
  intros a b. unfold notAfter.
  destruct (lt b a) eqn:Hba; [|by left]. right. by apply swo_asym.
Qed.

Lemma notAfter_trans : Transitive (notAfter lt).
Proof.
  intros a b c. unfold notAfter. intros Hba Hcb.
  destruct (lt c a) eqn:Hca; [|done]. exfalso.
  destruct (lt b c) eqn:Hbc.
  { pose proof (swo_trans _ Hlt _ _ _ Hbc Hca). congruence. }
  destruct (lt a b) eqn:Hab.
  { pose proof (swo_trans _ Hlt _ _ _ Hca Hab). congruence. }
  destruct (swo_incomparable _ Hlt a b c Hab Hba Hbc Hcb). congruence.
Qed.
End comparator.

Lemma refEnv_spec : StdSortSpec refEnv.
Proof.
  split; intros lt l Hlt; simpl; unfold refSort.
  - apply merge_sort_Permutation.
  - apply StronglySorted_merge_sort;
      [by apply notAfter_trans | by apply notAfter_total].
Qed.

Lemma byAddress_total descendingSort :
  StrictTotalOrder (fun a b => byAddress a b descendingSort).
Proof.
  unfold byAddress.
  split; [split|]; destruct descendingSort; intros;
    repeat match goal with
      | H : context [(?a <? ?b)%nat] |- _ => destruct (Nat.ltb_spec a b)
      | |- context [(?a <? ?b)%nat] => destruct (Nat.ltb_spec a b)
      end; try done; try lia.
Qed.


Lemma short_sorted (R : relation ItemPtr) (l : list ItemPtr) :
  (length l < 2)%nat -> StronglySorted R l.
Proof.
  destruct l as [|a [|b l]]; simpl; intros Hl; [constructor| |lia].
  constructor; [constructor|constructor].
Qed.

Lemma sortItemsByColumn_sorted E (s : State) (algs : list SortAlgorithm)
    (algorithm : SortAlgorithm) (column : nat)
    descendingSort :
  StdSortSpec E ->
  sortingAlgorithms s = Some algs -> sortingReady s algs ->
  algs !! column = Some algorithm ->
  StrictWeakOrder (fun a b => algorithm a b descendingSort) ->
  exists s',
    sortItemsByColumn E (Z.of_nat column) descendingSort s = Some s'
    /\ s' = set_renderItems (renderItems s') s
    /\ renderItems s' ≡ₚ renderItems s
    /\ StronglySorted (notAfter (fun a b => algorithm a b descendingSort))
         (renderItems s').
Proof.
  intros HE Ha Hready Hcol Hlt. unfold sortItemsByColumn.
  rewrite Ha. simpl. case_decide; [|done]. case_decide.
  - exists s. split; [done|]. split; [by destruct s|].
    split; [done|]. by apply short_sorted.
  - unfold at_. case_decide; [|lia]. rewrite Nat2Z.id, Hcol. simpl.
    eexists. split; [done|]. simpl. split; [done|].
    split; [by apply (std_sort_perm _ HE) | by apply (std_sort_sorted _ HE)].
Qed.

Lemma sortItemsByColumn_permutation E (s : State) (algs : list SortAlgorithm)
    (column : Z) descendingSort :
  StdSortSpec E -> comparatorsValid s ->
  sortingAlgorithms s = Some algs ->
  (sortingReady s algs -> 0 <= column < Z.of_nat (length algs)) ->
  exists s',
    sortItemsByColumn E column descendingSort s = Some s'
    /\ s' = set_renderItems (renderItems s') s
    /\ renderItems s' ≡ₚ renderItems s.
Proof.
  intros HE Hvalid Ha Hcol. unfold sortItemsByColumn. rewrite Ha. simpl.
  repeat case_decide; try (exists s; by destruct s).
  assert (0 <= column < Z.of_nat (length algs)) by auto.
  unfold at_. case_decide; [|lia].
  destruct (lookup_lt_is_Some_2 algs (Z.to_nat column)) as [algorithm Hl]; [lia|].
  rewrite Hl. simpl. eexists. split; [done|]. simpl. split; [done|].
  apply (std_sort_perm _ HE).
  apply (Hvalid algs); [done|]. by eapply list_elem_of_lookup_2.
Qed.





(** ** Search without an algorithm *)

Lemma getSearchItems_no_algorithm (s : State) items :
  searchAlgorithm s = None -> getSearchItems s items = items.
Proof. unfold getSearchItems. by intros ->. Qed.

(** C10.  Without a search algorithm [getSearchItems] returns its argument,
    whatever the search string.  [search] then makes [renderItems] equal to
    [listItems]; [addItems] appends the new items to both lists and hands
    [renderItems] to the sort, so the two lists keep the same members if
    they had the same before. *)
Theorem search_without_algorithm (E : Env) (s : State)
    (algs : list SortAlgorithm) (text : string) (items : list ItemPtr) :
  searchAlgorithm s = None ->
  StdSortSpec E -> comparatorsValid s ->
  sortingAlgorithms s = Some algs ->
  (sortingReady s algs ->
   defaultSortingColumn s = -1
   \/ 0 <= defaultSortingColumn s < Z.of_nat (length algs)) ->
  getSearchItems (set_searchContent text s) items = items
  /\ renderItems (search text s) = listItems s
  /\ listItems (search text s) = listItems s
  /\ exists s',
       addItems E items (set_searchContent text s) = Some s'
       /\ listItems s' = listItems s ++ items
       /\ renderItems s' ≡ₚ renderItems s ++ items
       /\ (renderItems s ≡ₚ listItems s ->
           renderItems s' ≡ₚ listItems s'
           /\ forall x, x ∈ renderItems s' <-> x ∈ listItems s').
Proof.
  intros Hnone HE Hvalid Ha Hcol.
  split; [by apply getSearchItems_no_algorithm|].
  split; [|split].
  - unfold search. case_decide; simpl; [done|].
    by rewrite getSearchItems_no_algorithm.
  - unfold search. case_decide; done.
  - unfold addItems. simpl.
    rewrite getSearchItems_no_algorithm by done.
    set (s2 := set_renderItems _ _).
    assert (exists s', (if decide (defaultSortingColumn s ≠ -1)
                        then sortItemsByColumn E (defaultSortingColumn s)
                               (defaultSortingOrder s) s2
                        else Some s2) = Some s'
                       /\ s' = set_renderItems (renderItems s') s2
                       /\ renderItems s' ≡ₚ renderItems s2)
      as (s' & Hs' & Heq & Hperm).
    { case_decide.
      - apply (sortItemsByColumn_permutation E s2 algs); [done|done|done|].
        intros Hready. destruct Hcol as [?|?]; [done|done|done].
      - exists s2. done. }
    exists s'. split; [done|]. rewrite Heq. simpl.
    split; [done|]. split; [done|]. intros Hsame.
    assert (renderItems s' ≡ₚ listItems s ++ items) as Hall
      by (by rewrite Hperm; simpl; rewrite Hsame).
    split; [done|]. intros x. by rewrite Hall.
Qed.

Lemma search_without_algorithm_witness :
  getSearchItems
    (set_searchContent "abc"
       (setSearchAlgorithm None (sortedView [2; 1]%nat [1; 2]%nat false)))
    [4; 3]%nat = [4; 3]%nat
  /\ renderItems
       (search "abc"
          (setSearchAlgorithm None (sortedView [2; 1]%nat [1; 2]%nat false)))
     = [2; 1]%nat
  /\ listItems
       (search "abc"
          (setSearchAlgorithm None (sortedView [2; 1]%nat [1; 2]%nat false)))
     = [2; 1]%nat
  /\ exists s',
       addItems refEnv [4; 3]%nat
         (set_searchContent "abc"
            (setSearchAlgorithm None (sortedView [2; 1]%nat [1; 2]%nat false)))
       = Some s'
       /\ listItems s' = [2; 1; 4; 3]%nat
       /\ renderItems s' ≡ₚ [1; 2; 4; 3]%nat
       /\ ([1; 2]%nat ≡ₚ [2; 1]%nat ->
           renderItems s' ≡ₚ listItems s'
           /\ forall x, x ∈ renderItems s' <-> x ∈ listItems s').
Proof.
  apply (search_without_algorithm refEnv
           (setSearchAlgorithm None (sortedView [2; 1]%nat [1; 2]%nat false))
           [byAddress] "abc" [4; 3]%nat).
  - reflexivity.
  - apply refEnv_spec.
  - intros algs algorithm d Ha Hin. simpl in Ha. simplify_eq.
    apply list_elem_of_singleton in Hin. subst.
    apply sto_weak, byAddress_total.
  - reflexivity.
  - intros _. right. simpl. lia.
Defined.

(** * Further properties of the view and the page indicator *)

(** ** The clamp *)


(** ** Removal at the bottom *)


(** ** The page indicator *)

(** X3.  With a current page among the pages, [nextPage] and [previousPage]
    stay among the pages, wrap around at the ends and undo each other. *)
Theorem page_cycle (d : PageIndicator.DPageIndicatorPrivate) :
  0 <= PageIndicator.currentPage d < PageIndicator.pageCount d ->
  0 <= PageIndicator.currentPage (PageIndicator.nextPage d)
    < PageIndicator.pageCount d
  /\ 0 <= PageIndicator.currentPage (PageIndicator.previousPage d)
       < PageIndicator.pageCount d
  /\ PageIndicator.previousPage (PageIndicator.nextPage d) = d
  /\ PageIndicator.nextPage (PageIndicator.previousPage d) = d
  /\ PageIndicator.currentPage (PageIndicator.nextPage d)
     = (if decide (PageIndicator.currentPage d = PageIndicator.pageCount d - 1)
        then 0 else PageIndicator.currentPage d + 1)
  /\ PageIndicator.currentPage (PageIndicator.previousPage d)
     = (if decide (PageIndicator.currentPage d = 0)
        then PageIndicator.pageCount d - 1
        else PageIndicator.currentPage d - 1).
Proof.
  destruct d as [count current]. simpl. intros Hrange.
  unfold PageIndicator.nextPage, PageIndicator.previousPage. simpl.
  assert (Z.rem (current + 1) count
          = if decide (current = count - 1) then 0 else current + 1) as Hnext.
  { case_decide.
    - replace (current + 1) with count by lia. apply Z.rem_same. lia.
    - apply Z.rem_small. lia. }
  rewrite decide_False by lia. rewrite Hnext.
  repeat split; repeat case_decide; simpl; try lia; f_equal; try lia.
  all: first [ replace (current - 1 + 1) with current by lia;
               apply Z.rem_small; lia
             | replace (count - 1 + 1) with count by lia;
               rewrite Z.rem_same by lia; lia ].
Qed.

(** X4.  The ends of the range are not guarded: [nextPage] on an indicator
    without pages makes page 0 current, and [previousPage] with no page
    current ([-1]) leaves [-2], an index that [setCurrentPage] turns down;
    [setPageCount] keeps a current page that the new count no longer has. *)
Theorem page_range_unguarded (d : PageIndicator.DPageIndicatorPrivate)
    (count : Z) :
  (PageIndicator.pageCount d = 0 ->
   PageIndicator.currentPage (PageIndicator.nextPage d) = 0)
  /\ (PageIndicator.currentPage d = -1 ->
      PageIndicator.currentPage (PageIndicator.previousPage d) = -2
      /\ PageIndicator.setCurrentPage (-2) d = d)
  /\ PageIndicator.currentPage (PageIndicator.setPageCount count d)
     = PageIndicator.currentPage d.
Proof.
  unfold PageIndicator.nextPage, PageIndicator.previousPage,
    PageIndicator.setCurrentPage, PageIndicator.setPageCount.
  split; [|split]; simpl.
  - intros ->. done.
  - intros ->. split; [done|]. first [ done | case_decide; [done|lia] ].
  - done.
Qed.

(** ** Search *)

Lemma search_renderItems content (s : State) :
  renderItems (search content s)
  = getSearchItems (set_searchContent content s) (listItems s).
Proof.
  unfold search. case_decide as Hc; simpl; [|done].
  destruct Hc as [-> _]. unfold getSearchItems. simpl. by case_match.
Qed.

(** X5.  [search] filters [listItems] afresh: an earlier search does not
    narrow a later one, the same search twice is the same as once, and
    [listItems] is never touched. *)
Theorem search_refilters (content content' : string) (s : State) :
  renderItems (search content' (search content s))
  = renderItems (search content' s)
  /\ search content (search content s) = search content s
  /\ listItems (search content s) = listItems s.
Proof.
  split; [|split].
  - rewrite !search_renderItems. unfold search. case_decide; done.
  - assert (forall t : State, searchContent t = content ->
              renderItems t = getSearchItems t (listItems t) ->
              search content t = t) as Hfix.
    { intros t Hc Hr. unfold search. rewrite decide_False by (rewrite Hc; tauto).
      simpl. destruct t; simpl in *. unfold getSearchItems in *. simpl in *.
      unfold set_renderItems, set_searchContent. simpl. by subst. }
    apply Hfix.
    + unfold search. case_decide as Hc; simpl; [by destruct Hc|done].
    + rewrite search_renderItems. unfold search. case_decide; done.
  - unfold search. case_decide; done.
Qed.

(** X6.  With an algorithm and a search string, the rendered items are the
    items of [listItems] that the algorithm accepts, in the order of
    [listItems]. *)
Theorem search_result (s : State) (algorithm : SearchAlgorithm)
    (content : string) :
  searchAlgorithm s = Some algorithm -> content ≠ "" ->
  renderItems (search content s) `sublist_of` listItems s
  /\ forall item,
       item ∈ renderItems (search content s)
       <-> item ∈ listItems s /\ algorithm item content = true.
Proof.
  intros Ha Hc. rewrite search_renderItems. unfold getSearchItems. simpl.
  rewrite Ha. rewrite decide_False by done. split.
  - apply sublist_filter.
  - intros item. rewrite list_elem_of_filter, Is_true_true. tauto.
Qed.

(** ** Keyboard navigation *)

Lemma indexOf_from_spec k x (l : list ItemPtr) :
  indexOf_from k x l = -1 /\ (0 <= k -> x ∉ l)
  \/ k <= indexOf_from k x l < k + Z.of_nat (length l)
     /\ l !! Z.to_nat (indexOf_from k x l - k) = Some x.
Proof.
  revert k. induction l as [|y l IH]; intros k; simpl.
  - left. split; [done|]. intros _. apply not_elem_of_nil.
  - case_decide as Hy.
    + right. split; [lia|]. rewrite Z.sub_diag. simpl. by subst.
    + destruct (IH (k + 1)) as [[Hi Hn]|[Hi Hl]].
      * left. split; [done|]. intros Hk. rewrite not_elem_of_cons.
        split; [done|]. apply Hn. lia.
      * right. split; [lia|].
        replace (Z.to_nat (indexOf_from (k + 1) x l - k))
          with (S (Z.to_nat (indexOf_from (k + 1) x l - (k + 1)))) by lia.
        done.
Qed.


Lemma indexOf_nil x : indexOf [] x = -1.
Proof. done. Qed.



(** X7.  On a view without rows whose selection is not empty (the rows were
    removed or filtered away), [selectNextItemWithOffset] reads
    [renderItems] at index [-1], while [selectPrevItemWithOffset] only
    records the offset. *)
Theorem navigation_without_rows (E : Env) (n : Z) (s : State) :
  renderItems s = [] -> selectionItems s ≠ [] ->
  selectNextItemWithOffset E n s = None
  /\ selectPrevItemWithOffset E n s
     = Some (set_oldRenderOffset (renderOffset s) s).
Proof.
  intros Hr Hsel. split.
  - unfold selectNextItemWithOffset. simpl. rewrite decide_False by done.
    rewrite Hr. simpl.
    assert (foldl (fun lastIndex item =>
                     if decide (indexOf [] item > lastIndex)
                     then indexOf [] item else lastIndex) 0 (selectionItems s)
            = 0) as ->.
    { generalize (selectionItems s). intros l. induction l; simpl; done. }
    case_decide; [|lia]. unfold at_. case_decide; done.
  - unfold selectPrevItemWithOffset. simpl. rewrite decide_False by done.
    rewrite Hr. simpl.
    assert (foldl (fun firstIndex item =>
                     if decide (indexOf [] item < firstIndex)
                     then indexOf [] item else firstIndex)
                  (Z.of_nat 0) (selectionItems s)
            = -1) as ->.
    { destruct (selectionItems s) as [|x l]; [done|]. simpl.
      induction l as [|y l IH]; simpl; [done|]. apply IH. done. }
    case_decide; [lia|done].
Qed.






(** ** Single selection *)

Lemma sortItemsByColumn_selection (E : Env) column order s s' :
  sortItemsByColumn E column order s = Some s' ->
  config s' = config s /\ selectionItems s' = selectionItems s.
Proof.
  unfold sortItemsByColumn. intros H. handler_cases; done.
Qed.

Lemma selectFirstItem_single (E : Env) (s : State) :
  (length (selectionItems s) <= 1)%nat ->
  config (selectFirstItem E s) = config s
  /\ (length (selectionItems (selectFirstItem E s)) <= 1)%nat.
Proof.
  unfold selectFirstItem, addSelections, clearSelections.
  intros H. handler_cases; done.
Qed.

Lemma selectLastItem_single (E : Env) (s : State) :
  (length (selectionItems s) <= 1)%nat ->
  config (selectLastItem E s) = config s
  /\ (length (selectionItems (selectLastItem E s)) <= 1)%nat.
Proof.
  unfold selectLastItem, addSelections, clearSelections.
  intros H. handler_cases; done.
Qed.

Lemma selectNextItemWithOffset_single (E : Env) n (s s' : State) :
  (length (selectionItems s) <= 1)%nat ->
  selectNextItemWithOffset E n s = Some s' ->
  config s' = config s /\ (length (selectionItems s') <= 1)%nat.
Proof.
  intros H. unfold selectNextItemWithOffset. simpl.
  case_decide.
  { intros [= <-]. apply (selectFirstItem_single E (set_oldRenderOffset _ s)). done. }
  unfold addSelections, clearSelections. intros H'.
  handler_cases; done.
Qed.

Lemma selectPrevItemWithOffset_single (E : Env) n (s s' : State) :
  (length (selectionItems s) <= 1)%nat ->
  selectPrevItemWithOffset E n s = Some s' ->
  config s' = config s /\ (length (selectionItems s') <= 1)%nat.
Proof.
  intros H. unfold selectPrevItemWithOffset. simpl.
  case_decide.
  { intros [= <-]. apply (selectFirstItem_single E (set_oldRenderOffset _ s)). done. }
  unfold addSelections, clearSelections. intros H'.
  handler_cases; done.
Qed.

(** X11.  In single-selection mode no key press and no mouse press selects a
    second row, and neither leaves the mode. *)
Theorem single_select_kept (E : Env) (key : Key) (button : MouseButton)
    (modifiers : KeyboardModifiers) (mx my : Z) (s s' : State) :
  isSingleSelect s = true -> (length (selectionItems s) <= 1)%nat ->
  keyPressEvent E key modifiers s = Some s'
  \/ mousePressEvent E button modifiers mx my s = Some s' ->
  isSingleSelect s' = true /\ (length (selectionItems s') <= 1)%nat.
Proof.
  intros Hmode Hlen [Hkey | Hmouse].
  - assert (config s' = config s /\ (length (selectionItems s') <= 1)%nat)
      as [Hc ?]; [|by rewrite Hc].
    unfold keyPressEvent, selectPrevItem, selectNextItem, scrollPageUp,
      scrollPageDown, shiftSelectToPrev, shiftSelectToNext, shiftSelectPageUp,
      shiftSelectPageDown, shiftSelectToHome, shiftSelectToEnd, selectAllItems,
      ctrlScrollToHome, ctrlScrollToEnd, ctrlScrollPageUp, ctrlScrollPageDown
      in Hkey.
    rewrite ?Hmode in Hkey.
    destruct key, modifiers; simplify_eq; simpl; try done;
      eauto using selectFirstItem_single, selectLastItem_single,
        selectNextItemWithOffset_single, selectPrevItemWithOffset_single.
    all: destruct (idiv _ _) eqn:?; simplify_eq/=;
      eauto using selectNextItemWithOffset_single, selectPrevItemWithOffset_single.
  - assert (config s' = config s /\ (length (selectionItems s') <= 1)%nat)
      as [Hc ?]; [|by rewrite Hc].
    unfold mousePressEvent in Hmouse.
    destruct (isMouseAtTitleArea s my).
    { unfold pressTitleArea, pressTitleColumn in Hmouse.
      destruct button; simplify_eq; try done.
      destruct (sortingAlgorithms s); simplify_eq/=.
      case_decide; simplify_eq; try done.
      destruct (columnAt _ _ _ _); simplify_eq; try done.
      destruct (sortingOrderes s !! n); simplify_eq/=.
      destruct (sortItemsByColumn _ _ _ _) eqn:Hsort; simplify_eq/=.
      apply sortItemsByColumn_selection in Hsort as [Hc Hs]. simpl in *.
      case_decide; simpl; rewrite Hc, Hs; done. }
    destruct (isMouseAtScrollArea s mx).
    { unfold pressScrollArea in Hmouse. handler_cases; done. }
    unfold pressItemArea, addSelections, clearSelections in Hmouse.
    rewrite Hmode in Hmouse. simpl in Hmouse.
    destruct (idiv _ _); simplify_eq/=.
    case_decide; simplify_eq.
    { handler_cases; (split; [done | simpl; lia]). }
    destruct button; simplify_eq; try done.
    + destruct (clearLastSelection_default E), (recordLastSelection_default E);
        simpl in *; destruct (at_ _ _) eqn:Hat; simplify_eq/=;
        rewrite Hat in Hmouse; simplify_eq/=; (split; [done | simpl; lia]).
    + destruct (at_ _ _); simplify_eq/=.
      destruct (contains _ _); [done|].
      destruct (clearLastSelection_default E), (recordLastSelection_default E);
        simpl in *; (split; [done | simpl; lia]).
Qed.

(** ** Mouse selection *)

Lemma bound_slice (l : list ItemPtr) (a b : Z) :
  omap id
    (imap (fun index item =>
             if decide (Z.of_nat index >= a ∧ Z.of_nat index <= b)
             then Some item else None) l)
  = take (Z.to_nat (b + 1 - Z.max 0 a)) (drop (Z.to_nat a) l).
Proof.
  revert a b. induction l as [|x l IH]; intros a b.
  { simpl. by rewrite drop_nil, take_nil. }
  rewrite imap_cons. simpl.
  rewrite (imap_ext _ (fun index item =>
                         if decide (Z.of_nat index >= a - 1
                                    ∧ Z.of_nat index <= b - 1)
                         then Some item else None)).
  2: { intros i y _. simpl. repeat case_decide; done || lia. }
  rewrite IH. case_decide as Hab.
  - simpl. replace (Z.to_nat a) with 0%nat by lia.
    replace (Z.to_nat (a - 1)) with 0%nat by lia. simpl.
    replace (Z.to_nat (b + 1 - Z.max 0 a)) with (S (Z.to_nat b)) by lia.
    simpl. f_equal. f_equal. lia.
  - destruct (decide (0 < a)).
    + replace (Z.to_nat a) with (S (Z.to_nat (a - 1))) by lia. simpl.
      f_equal. lia.
    + replace (Z.to_nat (b - 1 + 1 - Z.max 0 (a - 1))) with 0%nat by lia.
      replace (Z.to_nat (b + 1 - Z.max 0 a)) with 0%nat by lia. done.
Qed.

Lemma shiftSelectItemsWithBound_selection (a b : Z) (s : State) :
  selectionItems (shiftSelectItemsWithBound a b s)
  = take (Z.to_nat (b + 1 - Z.max 0 a)) (drop (Z.to_nat a) (renderItems s))
  /\ lastSelectItem (shiftSelectItemsWithBound a b s) = lastSelectItem s
  /\ renderItems (shiftSelectItemsWithBound a b s) = renderItems s
  /\ renderOffset (shiftSelectItemsWithBound a b s) = renderOffset s
  /\ config (shiftSelectItemsWithBound a b s) = config s.
Proof.
  unfold shiftSelectItemsWithBound, addSelections, clearSelections. simpl.
  rewrite bound_slice. destruct (last _); done.
Qed.

Lemma row_under_pointer (s : State) (my j : Z) :
  0 < rowHeight s -> 0 <= j ->
  j * rowHeight s <= renderOffset s + my - titleHeight s < (j + 1) * rowHeight s ->
  idiv (renderOffset s + my - titleHeight s) (rowHeight s) = Some j.
Proof.
  intros Hrow Hj Hband. unfold idiv. rewrite decide_False by lia. f_equal.
  rewrite Z.quot_div_nonneg by nia. symmetry. apply Z.div_unique_pos with
    (r := renderOffset s + my - titleHeight s - j * rowHeight s); lia.
Qed.

Lemma row_below_rows (s : State) (my : Z) :
  0 < rowHeight s ->
  Z.of_nat (length (renderItems s)) * rowHeight s
    <= renderOffset s + my - titleHeight s ->
  exists j, idiv (renderOffset s + my - titleHeight s) (rowHeight s) = Some j
            /\ j >= Z.of_nat (length (renderItems s)).
Proof.
  intros Hrow Hbelow. unfold idiv. rewrite decide_False by lia.
  eexists. split; [done|]. rewrite Z.quot_div_nonneg by nia.
  apply Z.le_ge, Z.div_le_lower_bound; lia.
Qed.

Lemma item_area (s : State) (mx my : Z) :
  titleHeight s <= my -> mx <= width s - scrollbarDragWidth s ->
  isMouseAtTitleArea s my = false /\ isMouseAtScrollArea s mx = false.
Proof.
  intros Hy Hx. unfold isMouseAtTitleArea, isMouseAtScrollArea. split.
  - apply andb_false_iff. right. apply bool_decide_eq_false. lia.
  - apply andb_false_iff. left. apply bool_decide_eq_false. lia.
Qed.

(** X12.  A left click without modifier on the band of row [j] of the item
    area selects that row alone and scrolls nothing; a click below the last
    row empties the selection, or keeps it when the view was told to keep
    the selection on a click on the blank. *)
Theorem click_selects_row (E : Env) (button : MouseButton)
    (modifiers : KeyboardModifiers) (mx my : Z) (s : State) :
  0 < rowHeight s -> titleHeight s <= my ->
  mx <= width s - scrollbarDragWidth s ->
  (forall (j : nat) (item : ItemPtr),
     Z.of_nat j * rowHeight s <= renderOffset s + my - titleHeight s
       < (Z.of_nat j + 1) * rowHeight s ->
     renderItems s !! j = Some item ->
     exists s',
       mousePressEvent E LeftButton NoModifier mx my s = Some s'
       /\ selectionItems s' = [item]
       /\ renderItems s' = renderItems s
       /\ renderOffset s' = renderOffset s)
  /\ (Z.of_nat (length (renderItems s)) * rowHeight s
        <= renderOffset s + my - titleHeight s ->
      exists s',
        mousePressEvent E button modifiers mx my s = Some s'
        /\ selectionItems s'
           = (if isKeepSelectWhenClickBlank s then selectionItems s else [])
        /\ renderItems s' = renderItems s
        /\ renderOffset s' = renderOffset s).
Proof.
  intros Hrow Hy Hx. destruct (item_area s mx my Hy Hx) as [Ht Hs].
  unfold mousePressEvent. rewrite Ht, Hs. unfold pressItemArea. split.
  - intros j item Hband Hitem.
    rewrite (row_under_pointer s my (Z.of_nat j)) by lia. simpl.
    pose proof (lookup_lt_Some _ _ _ Hitem).
    rewrite decide_False by lia.
    unfold at_, addSelections, clearSelections.
    destruct (decide (0 <= Z.of_nat j)); [|lia]. rewrite Nat2Z.id.
    destruct (isSingleSelect s), (clearLastSelection_default E),
      (recordLastSelection_default E);
      simpl; rewrite Hitem; simpl; rewrite ?Hitem; simpl; eexists; done.
  - intros Hbelow. destruct (row_below_rows s my Hrow Hbelow) as (j & -> & Hj).
    simpl. rewrite decide_True by done. unfold clearSelections.
    destruct (isKeepSelectWhenClickBlank s), (clearLastSelection_default E);
      eexists; done.
Qed.

(** X13.  In multiple-selection mode, with a selection, a left click with
    Shift on the band of row [j] selects the rendered rows from the anchor
    (the last selected item) to row [j], in list order, and leaves the
    anchor where it is; an anchor that is no longer rendered counts as
    above the first row. *)
Theorem shift_click_selects_range (E : Env) (mx my : Z) (j : nat) (s : State) :
  0 < rowHeight s -> titleHeight s <= my ->
  mx <= width s - scrollbarDragWidth s ->
  isSingleSelect s = false -> selectionItems s ≠ [] ->
  Z.of_nat j * rowHeight s <= renderOffset s + my - titleHeight s
    < (Z.of_nat j + 1) * rowHeight s ->
  (j < length (renderItems s))%nat ->
  let anchor := indexOf (renderItems s) (lastSelectItem s) in
  let first := Z.max 0 (Z.min (Z.of_nat j) anchor) in
  let last := Z.max (Z.of_nat j) anchor in
  exists s',
    mousePressEvent E LeftButton ShiftModifier mx my s = Some s'
    /\ selectionItems s'
       = take (Z.to_nat (last + 1 - first)) (drop (Z.to_nat first) (renderItems s))
    /\ lastSelectItem s' = lastSelectItem s
    /\ renderItems s' = renderItems s.
Proof.
  intros Hrow Hy Hx Hmode Hsel Hband Hj anchor first last.
  destruct (item_area s mx my Hy Hx) as [Ht Hs].
  unfold mousePressEvent. rewrite Ht, Hs. unfold pressItemArea.
  rewrite (row_under_pointer s my (Z.of_nat j)) by lia. simpl.
  rewrite decide_False by lia. rewrite Hmode. simpl.
  rewrite bool_decide_eq_false_2 by done. simpl. fold anchor.
  destruct (shiftSelectItemsWithBound_selection
              (Z.min (Z.of_nat j) anchor) (Z.max (Z.of_nat j) anchor) s)
    as (Hsl & Hl & Hr & _).
  destruct (lookup_lt_is_Some_2 (renderItems s) j Hj) as [item Hitem].
  unfold at_. destruct (decide (0 <= Z.of_nat j)); [|lia].
  rewrite Hr, Nat2Z.id, Hitem. simpl.
  eexists. split; [done|]. rewrite Hsl. split; [|done].
  unfold first, last. f_equal. f_equal. lia.
Qed.

Lemma removeOne_appended (x : ItemPtr) (l : list ItemPtr) :
  x ∉ l -> removeOne x (l ++ [x]) = l.
Proof.
  induction l as [|y l IH]; simpl; intros Hx.
  - by rewrite decide_True.
  - apply not_elem_of_cons in Hx as [Hxy Hx].
    rewrite decide_False by done. by rewrite IH.
Qed.

(** X14.  In multiple-selection mode a left click with Control on a row that
    is not selected adds the row to the end of the selection, a second one
    takes it out again and the selection is what it was; on a selected row
    the click takes the first occurrence of the row out of the selection. *)
Theorem ctrl_click_toggles (E : Env) (mx my : Z) (j : nat) (item : ItemPtr)
    (s : State) :
  0 < rowHeight s -> titleHeight s <= my ->
  mx <= width s - scrollbarDragWidth s ->
  isSingleSelect s = false ->
  Z.of_nat j * rowHeight s <= renderOffset s + my - titleHeight s
    < (Z.of_nat j + 1) * rowHeight s ->
  renderItems s !! j = Some item ->
  exists s1,
    mousePressEvent E LeftButton ControlModifier mx my s = Some s1
    /\ renderItems s1 = renderItems s /\ renderOffset s1 = renderOffset s
    /\ (item ∈ selectionItems s ->
        selectionItems s1 = removeOne item (selectionItems s))
    /\ (item ∉ selectionItems s ->
        selectionItems s1 = selectionItems s ++ [item]
        /\ exists s2,
             mousePressEvent E LeftButton ControlModifier mx my s1 = Some s2
             /\ selectionItems s2 = selectionItems s).
Proof.
  intros Hrow Hy Hx Hmode Hband Hitem.
  assert (forall t : State,
            config t = config s -> renderItems t = renderItems s ->
            renderOffset t = renderOffset s ->
            mousePressEvent E LeftButton ControlModifier mx my t
            = Some (if contains (selectionItems t) item
                    then set_selectionItems (removeOne item (selectionItems t)) t
                    else addSelections [item] (recordLastSelection_default E) t))
    as Hclick.
  { intros t Hc Hr Ho.
    destruct (item_area t mx my) as [Ht Hs]; [by rewrite Hc..|].
    unfold mousePressEvent. rewrite Ht, Hs. unfold pressItemArea.
    rewrite (row_under_pointer t my (Z.of_nat j)) by (rewrite ?Hc, ?Ho; lia).
    simpl. pose proof (lookup_lt_Some _ _ _ Hitem).
    rewrite decide_False by (rewrite Hr; lia). rewrite Hc, Hmode. simpl.
    unfold at_. destruct (decide (0 <= Z.of_nat j)); [|lia].
    rewrite Nat2Z.id, Hr, Hitem. simpl.
    replace (renderItems (if contains (selectionItems t) item
                          then set_selectionItems _ t else addSelections _ _ t))
      with (renderItems s); [by rewrite Hitem|].
    unfold addSelections. destruct (contains _ _); simpl; [done|].
    destruct (last _); [destruct (recordLastSelection_default E)|]; done. }
  rewrite (Hclick s) by done. eexists. split; [done|].
  unfold contains. case_bool_decide as Hin.
  - simpl. split; [done|]. split; [done|]. split; [done|]. intros Hnot. done.
  - assert (forall t : State,
              t = addSelections [item] (recordLastSelection_default E) s ->
              config t = config s /\ renderItems t = renderItems s
              /\ renderOffset t = renderOffset s
              /\ selectionItems t = selectionItems s ++ [item]) as Hadd.
    { intros t ->. unfold addSelections. simpl.
      destruct (last _); [destruct (recordLastSelection_default E)|]; done. }
    destruct (Hadd _ eq_refl) as (Hc & Hr & Ho & Hsel).
    split; [done|]. split; [done|]. split; [done|]. intros _.
    split; [done|]. rewrite (Hclick _ Hc Hr Ho). eexists. split; [done|].
    unfold contains. rewrite Hsel.
    rewrite bool_decide_eq_true_2 by (apply elem_of_app; right; left).
    simpl. by apply removeOne_appended.
Qed.

(** X15.  In multiple-selection mode, with a selection, Shift+End selects
    the rendered rows from the anchor to the last one and scrolls to the
    bottom, Shift+Home selects the rows from the first one to the anchor and
    scrolls to the top; neither moves the anchor.  With an anchor that is no
    longer rendered Shift+End selects every row and Shift+Home none. *)
Theorem shift_home_end_select_from_anchor (E : Env) (s : State) :
  isSingleSelect s = false -> selectionItems s ≠ [] ->
  let anchor := indexOf (renderItems s) (lastSelectItem s) in
  selectionItems (shiftSelectToEnd E s) = drop (Z.to_nat anchor) (renderItems s)
  /\ renderOffset (shiftSelectToEnd E s) = getBottomRenderOffset s
  /\ lastSelectItem (shiftSelectToEnd E s) = lastSelectItem s
  /\ selectionItems (shiftSelectToHome E s)
     = take (Z.to_nat (anchor + 1)) (renderItems s)
  /\ renderOffset (shiftSelectToHome E s) = 0
  /\ lastSelectItem (shiftSelectToHome E s) = lastSelectItem s.
Proof.
  intros Hmode Hsel anchor.
  assert (-1 <= anchor < Z.of_nat (length (renderItems s))) as Hanchor.
  { unfold anchor, indexOf.
    destruct (indexOf_from_spec 0 (lastSelectItem s) (renderItems s))
      as [[? _]|[? _]]; lia. }
  unfold shiftSelectToEnd, shiftSelectToHome. rewrite Hmode.
  rewrite !decide_False by done. fold anchor.
  destruct (shiftSelectItemsWithBound_selection anchor
              (Z.of_nat (length (renderItems s)) - 1) s)
    as (Hs1 & Hl1 & Hr1 & Ho1 & Hc1).
  destruct (shiftSelectItemsWithBound_selection 0 anchor s)
    as (Hs2 & Hl2 & Hr2 & Ho2 & Hc2).
  simpl. rewrite Hs1, Hl1, Hs2, Hl2.
  unfold getBottomRenderOffset, getItemsTotalHeight. rewrite Hr1, Hc1.
  repeat split; try done.
  - rewrite take_ge; [done|]. rewrite length_drop. lia.
  - f_equal. lia.
Qed.

(** ** Sorting registration, columns and painting *)

(** X16.  [setColumnSortingAlgorithms] appends one order flag per comparator
    to the flags it finds.  Once the view is ready to sort, a second call
    with a list of comparators leaves it with more flags than titles: from
    then on [sortItemsByColumn] and the left click on a title change
    nothing. *)
Theorem sorting_registered_twice (E : Env) (algs algs' : list SortAlgorithm)
    (sortColumn sortColumn' column mx : Z) (descendingSort descendingSort' order : bool)
    (s : State) :
  let s1 := setColumnSortingAlgorithms (Some algs) sortColumn descendingSort s in
  let s2 := setColumnSortingAlgorithms (Some algs') sortColumn' descendingSort' s1 in
  sortingReady s1 algs -> algs' ≠ [] ->
  length (sortingOrderes s2)
  = (length (sortingOrderes s) + length algs + length algs')%nat
  /\ ¬ sortingReady s2 algs'
  /\ sortItemsByColumn E column order s2 = Some s2
  /\ pressTitleArea E LeftButton mx s2 = Some s2.
Proof.
  intros s1 s2 (Hne & Ha & Ho) Hne'.
  assert (length (sortingOrderes s2)
          = (length (sortingOrderes s) + length algs + length algs')%nat) as Hlen.
  { unfold s2, s1, setColumnSortingAlgorithms. simpl.
    rewrite !length_app, !length_replicate. lia. }
  assert (¬ sortingReady s2 algs') as Hnot.
  { intros (_ & Ha' & Ho'). rewrite Hlen in Ho'.
    unfold s1, setColumnSortingAlgorithms in Ho. simpl in Ho.
    rewrite length_app, length_replicate in Ho.
    assert (length algs' ≠ 0%nat) by (by destruct algs').
    unfold s2, s1, setColumnSortingAlgorithms in Ho', Ha'. simpl in Ho', Ha'.
    lia. }
  split; [done|]. split; [done|].
  unfold sortItemsByColumn, pressTitleArea.
  replace (sortingAlgorithms s2) with (Some algs') by done. simpl.
  rewrite !decide_False by done. done.
Qed.

Lemma columnLeft_nonneg (renderWidths : list Z) (column : nat) :
  0 <= columnLeft renderWidths column.
Proof.
  unfold columnLeft. revert column.
  induction renderWidths as [|w l IH]; intros [|column]; simpl; try done.
  specialize (IH column). lia.
Qed.

Lemma columnAt_spec (mx : Z) (renderWidths : list Z) (columnCounter : nat)
    (columnRenderX : Z) (column : nat) :
  columnAt mx renderWidths columnCounter columnRenderX = Some column
  <-> exists (i : nat) renderWidth,
        column = (columnCounter + i)%nat
        /\ renderWidths !! i = Some renderWidth /\ renderWidth > 0
        /\ columnRenderX + columnLeft renderWidths i < mx
           < columnRenderX + columnLeft renderWidths i + renderWidth.
Proof.
  revert columnCounter columnRenderX.
  induction renderWidths as [|w l IH]; intros c x; simpl.
  { split; [done|]. intros (i & ? & _ & ? & _). done. }
  destruct (decide (w > 0)) as [Hw|Hw].
  - destruct (decide (mx > x ∧ mx < x + w)) as [Hin|Hout].
    + split.
      * intros [= <-]. exists 0%nat, w. unfold columnLeft. simpl.
        repeat split; try done; lia.
      * intros ([|i] & w' & -> & Hl & Hw' & Hx); [f_equal; lia|].
        pose proof (columnLeft_nonneg l i).
        unfold columnLeft in *. simpl in *. lia.
    + rewrite IH. split.
      * intros (i & w' & -> & Hl & Hw' & Hx). exists (S i), w'.
        unfold columnLeft in *. simpl. repeat split; try done; lia.
      * intros ([|i] & w' & -> & Hl & Hw' & Hx).
        { unfold columnLeft in *. simpl in *. simplify_eq. lia. }
        exists i, w'. unfold columnLeft in *. simpl in *.
        repeat split; try done; lia.
  - rewrite IH. split.
    + intros (i & w' & -> & Hl & Hw' & Hx). exists (S i), w'.
      unfold columnLeft in *. simpl. repeat split; try done; lia.
    + intros ([|i] & w' & -> & Hl & Hw' & Hx).
      { simpl in *. simplify_eq. lia. }
      exists i, w'. unfold columnLeft in *. simpl in *.
      repeat split; try done; lia.
Qed.

(** X17.  The column a pointer at [mx] falls in, as the title handlers work
    it out: the one column of positive width whose span, laid out from the
    left edge, holds [mx] strictly inside.  A pointer on the first pixel of a
    column, or on the pixel after the last column, falls in no column. *)
Theorem columnAt_hit (mx : Z) (renderWidths : list Z) (column : nat) :
  (columnAt mx renderWidths 0 0 = Some column
   <-> exists renderWidth,
         renderWidths !! column = Some renderWidth /\ renderWidth > 0
         /\ columnLeft renderWidths column < mx
            < columnLeft renderWidths column + renderWidth)
  /\ columnAt (columnLeft renderWidths column) renderWidths 0 0 = None.
Proof.
  split.
  - rewrite columnAt_spec. split.
    + intros (i & w & -> & ? & ? & ?). exists w. simpl. repeat split; try done; lia.
    + intros (w & ? & ? & ?). exists column, w. repeat split; try done; lia.
  - destruct (columnAt _ renderWidths 0 0) as [k|] eqn:Hk; [|done].
    apply columnAt_spec in Hk as (i & w & -> & Hl & Hw & Hx). exfalso.
    simpl in Hx.
    assert (forall (l : list Z) (a b : nat),
              (a <= b)%nat -> columnLeft l a <= columnLeft l b) as Hmono.
    { clear. unfold columnLeft. induction l as [|w l IH]; intros a b Hab.
      - by rewrite !take_nil.
      - destruct a, b; simpl; try lia.
        + pose proof (columnLeft_nonneg l b). unfold columnLeft in *. lia.
        + specialize (IH a b ltac:(lia)). lia. }
    assert (forall (l : list Z) (a : nat) w,
              l !! a = Some w -> columnLeft l (S a) = columnLeft l a + Z.max 0 w)
      as Hnext.
    { clear. unfold columnLeft. induction l as [|w0 l IH]; intros [|a] w Hl;
        simpl in *; simplify_eq; try lia.
      rewrite (IH a w Hl). lia. }
    destruct (decide (i < column)%nat) as [Hlt|Hge].
    + pose proof (Hmono renderWidths (S i) column ltac:(lia)).
      rewrite (Hnext _ _ _ Hl) in *. lia.
    + pose proof (Hmono renderWidths column i ltac:(lia)). lia.
Qed.


(** ** Rendered rows and items *)

Lemma removeOne_perm (x : ItemPtr) (l : list ItemPtr) :
  x ∈ l -> l ≡ₚ x :: removeOne x l.
Proof.
  induction l as [|y l IH]; simpl; intros Hx.
  - by apply not_elem_of_nil in Hx.
  - case_decide as Hy; [by subst|].
    apply elem_of_cons in Hx as [->|Hx]; [done|].
    rewrite (IH Hx) at 1. apply Permutation_swap.
Qed.

Lemma removeOne_absent (x : ItemPtr) (l : list ItemPtr) :
  x ∉ l -> removeOne x l = l.
Proof.
  induction l as [|y l IH]; simpl; intros Hx; [done|].
  apply not_elem_of_cons in Hx as [Hxy Hx].
  rewrite decide_False by done. by rewrite IH.
Qed.

Lemma removeOne_submseteq (x : ItemPtr) (l k : list ItemPtr) :
  l ⊆+ k -> removeOne x l ⊆+ removeOne x k.
Proof.
  intros Hlk. destruct (decide (x ∈ k)) as [Hk|Hk].
  - destruct (decide (x ∈ l)) as [Hl|Hl].
    + rewrite (removeOne_perm x l Hl), (removeOne_perm x k Hk) in Hlk.
      by apply (submseteq_app_inv_l _ _ [x]) in Hlk.
    + rewrite (removeOne_absent x l Hl).
      rewrite (removeOne_perm x k Hk) in Hlk.
      apply submseteq_cons_r in Hlk as [Hlk|(l' & Hl' & _)]; [done|].
      exfalso. apply Hl. rewrite Hl'. left.
  - rewrite (removeOne_absent x k Hk), removeOne_absent; [done|].
    intros Hl. apply Hk. by eapply elem_of_submseteq.
Qed.

Lemma getSearchItems_sublist (s : State) (items : list ItemPtr) :
  getSearchItems s items `sublist_of` items.
Proof.
  unfold getSearchItems. destruct (searchAlgorithm s); [|done].
  case_decide; [done|]. apply sublist_filter.
Qed.

Lemma sortItemsByColumn_rearranges (E : Env) (column : Z) (order : bool)
    (s s' : State) :
  StdSortSpec E -> comparatorsValid s ->
  sortItemsByColumn E column order s = Some s' ->
  renderItems s' ≡ₚ renderItems s /\ listItems s' = listItems s
  /\ config s' = config s.
Proof.
  intros HE Hvalid. unfold sortItemsByColumn.
  destruct (sortingAlgorithms s) as [algs|] eqn:Ha; [|done]. simpl.
  case_decide; [|by intros [= <-]]. case_decide; [by intros [= <-]|].
  destruct (at_ algs column) as [algorithm|] eqn:Hat; [|done]. simpl.
  intros [= <-]. simpl. split; [|done].
  apply (std_sort_perm _ HE). apply (Hvalid algs); [done|].
  unfold at_ in Hat. case_decide; [|done]. by eapply list_elem_of_lookup_2.
Qed.

(** X19.  With a [std::sort] that rearranges and comparators that are valid
    for it, the rendered rows stay items of the view, counted with their
    multiplicity, through [addItems], [removeItem], [clearItems],
    [refreshItems], [search] and every mouse press (the title click sorts
    the rendered rows). *)
Theorem rendered_rows_are_items (E : Env) (s : State) :
  StdSortSpec E -> comparatorsValid s -> renderItems s ⊆+ listItems s ->
  (forall items s',
     addItems E items s = Some s' -> renderItems s' ⊆+ listItems s')
  /\ (forall item,
        renderItems (removeItem item s) ⊆+ listItems (removeItem item s))
  /\ renderItems (clearItems s) ⊆+ listItems (clearItems s)
  /\ (forall items s',
        refreshItems E items s = Some s' -> renderItems s' ⊆+ listItems s')
  /\ (forall content,
        renderItems (search content s) ⊆+ listItems (search content s))
  /\ (forall button modifiers mx my s',
        mousePressEvent E button modifiers mx my s = Some s' ->
        renderItems s' ⊆+ listItems s').
Proof.
  intros HE Hvalid Hinv.
  assert (forall (t t' : State) column order,
            config t = config s -> renderItems t ⊆+ listItems t ->
            sortItemsByColumn E column order t = Some t' ->
            renderItems t' ⊆+ listItems t') as Hsort.
  { intros t t' column order Hc Ht Hs.
    apply sortItemsByColumn_rearranges in Hs as (Hp & Hl & _); [|done|].
    - by rewrite Hp, Hl.
    - unfold comparatorsValid. rewrite Hc. apply Hvalid. }
  split; [|split; [|split; [|split; [|split]]]].
  - intros items s'. unfold addItems. simpl.
    set (t := set_renderItems _ _).
    assert (renderItems t ⊆+ listItems t) as Ht.
    { simpl. apply submseteq_app; [done|].
      apply sublist_submseteq, getSearchItems_sublist. }
    case_decide; [by apply (Hsort t)|]. by intros [= <-].
  - intros item. unfold removeItem. case_decide; [done|].
    case_decide; simpl; by apply removeOne_submseteq.
  - done.
  - intros items s'. unfold refreshItems, clearItems. simpl.
    set (t := set_renderItems (getSearchItems _ items) _).
    assert (renderItems t ⊆+ listItems t) as Ht.
    { simpl. apply sublist_submseteq, getSearchItems_sublist. }
    destruct (if decide (defaultSortingColumn s ≠ -1)
              then sortItemsByColumn E (defaultSortingColumn s)
                     (defaultSortingOrder s) t
              else Some t) as [t'|] eqn:Ht'; [|done].
    assert (renderItems t' ⊆+ listItems t') as Hinv'.
    { case_decide; [by eapply (Hsort t)|]. by simplify_eq. }
    simpl. intros [= <-]. unfold addSelections, clearSelections.
    destruct (clearLastSelection_default E), (last _); done.
  - intros content. unfold search.
    case_decide; simpl; [done|]. apply sublist_submseteq, getSearchItems_sublist.
  - intros button modifiers mx my s'. unfold mousePressEvent.
    destruct (isMouseAtTitleArea s my).
    { unfold pressTitleArea, pressTitleColumn.
      destruct button; try (by intros [= <-]).
      destruct (sortingAlgorithms s); [|done]. simpl.
      case_decide; [|by intros [= <-]].
      destruct (columnAt _ _ _ _); [|by intros [= <-]].
      destruct (sortingOrderes s !! n); [|done]. simpl.
      destruct (sortItemsByColumn _ _ _ _) as [t'|] eqn:Ht'; [|done].
      apply Hsort in Ht'; [|done..]. simpl. intros [= <-].
      case_decide; done. }
    destruct (isMouseAtScrollArea s mx).
    { unfold pressScrollArea. intros H. handler_cases; done. }
    unfold pressItemArea, shiftSelectItemsWithBound, addSelections,
      clearSelections.
    intros H. handler_cases; done.
Qed.

(** X20.  [addItems] on a view that is ready to sort, with a registered
    column as the sort column and a comparator that is valid for
    [std::sort]: the items are appended to the list of the view, and the
    rendered rows are the old ones and the new ones that pass the search,
    rearranged in the order of the sort column. *)
Theorem addItems_keeps_sort_order (E : Env) (s : State)
    (algs : list SortAlgorithm) (algorithm : SortAlgorithm) (column : nat)
    (items : list ItemPtr) :
  StdSortSpec E ->
  sortingAlgorithms s = Some algs -> sortingReady s algs ->
  defaultSortingColumn s = Z.of_nat column -> algs !! column = Some algorithm ->
  StrictWeakOrder (fun a b => algorithm a b (defaultSortingOrder s)) ->
  exists s',
    addItems E items s = Some s'
    /\ listItems s' = listItems s ++ items
    /\ renderItems s' ≡ₚ renderItems s ++ getSearchItems s items
    /\ StronglySorted
         (notAfter (fun a b => algorithm a b (defaultSortingOrder s)))
         (renderItems s').
Proof.
  intros HE Ha Hready Hcol Hl Hlt. unfold addItems. simpl.
  rewrite decide_True by lia. rewrite Hcol.
  set (t := set_renderItems _ _).
  destruct (sortItemsByColumn_sorted E t algs algorithm column
              (defaultSortingOrder s))
    as (s' & Hs' & Heq & Hperm & Hsorted); try done.
  exists s'. split; [done|]. rewrite Heq. simpl. split; [done|]. done.
Qed.


Lemma foldl_add (l : list Z) (a : Z) :
  foldl Z.add a l = a + foldr Z.add 0 l.
Proof.
  revert a. induction l as [|x l IH]; intros a; simpl; [lia|].
  rewrite IH. lia.
Qed.

Lemma sum_imap_one_differs (f g : nat -> Z -> Z) (l : list Z) (i : nat) (w : Z) :
  l !! i = Some w ->
  (forall j wj, j ≠ i -> l !! j = Some wj -> g j wj = f j wj) ->
  foldr Z.add 0 (imap g l) = foldr Z.add 0 (imap f l) + (g i w - f i w).
Proof.
  revert f g i. induction l as [|w0 l IH]; intros f g i Hi Hsame; [done|].
  rewrite !imap_cons. simpl. destruct i as [|i]; simpl in Hi.
  - simplify_eq.
    rewrite (imap_ext (g ∘ S) (f ∘ S) l); [lia|].
    intros j wj Hj. simpl. by apply Hsame.
  - rewrite (IH (f ∘ S) (g ∘ S) i Hi).
    2: { intros j wj Hji Hj. simpl. apply Hsame; [lia|done]. }
    rewrite (Hsame 0%nat w0); [simpl; lia|lia|done].
Qed.

(** X22.  [getRenderWidths] gives one width per column ([width] alone when
    no column was set); when exactly one visible column has the automatic
    width [-1], that column gets what the visible fixed columns leave of the
    width of the view, so that the render widths add up to it. *)
Theorem getRenderWidths_fill_the_view (s : State) (i : nat) :
  columnWidths s !! i = Some (-1) -> columnVisibles s !! i = Some true ->
  (forall j, j ≠ i -> columnWidths s !! j = Some (-1) ->
             default false (columnVisibles s !! j) = false) ->
  length (getRenderWidths s) = length (columnWidths s)
  /\ foldl Z.add 0 (getRenderWidths s) = width s
  /\ getRenderWidths s !! i
     = Some (width s
             - foldl Z.add 0
                 (imap (fun j wj =>
                          if decide (wj ≠ -1)
                          then (if default false (columnVisibles s !! j)
                                then wj else 0)
                          else 0) (columnWidths s))).
Proof.
  intros Hi Hv Hauto. unfold getRenderWidths.
  pose proof (lookup_lt_Some _ _ _ Hi).
  rewrite decide_True by lia.
  rewrite decide_True by (by eapply list_elem_of_lookup_2).
  set (total := foldl Z.add 0 _).
  split; [by rewrite length_imap|]. split.
  - rewrite foldl_add.
    rewrite (sum_imap_one_differs
               (fun j wj =>
                  if decide (wj ≠ -1)
                  then (if default false (columnVisibles s !! j) then wj else 0)
                  else 0) _ (columnWidths s) i (-1) Hi).
    + simpl. rewrite Hv. simpl. unfold total. rewrite foldl_add. lia.
    + intros j wj Hji Hj. simpl. case_decide as Hw; [done|].
      rewrite Hauto; [done|done|]. rewrite Hj. f_equal. lia.
  - rewrite list_lookup_imap, Hi. simpl. rewrite Hv. done.
Qed.

(** ** Column titles *)

Lemma titleWidths_spec (E : Env) (titles : list string) (widths : list Z)
    (k : nat) :
  match titleWidths E titles widths k with
  | None =>
      exists (i : nat) w,
        widths !! i = Some w /\ w ≠ -1 /\ (length titles <= k + i)%nat
  | Some columnWidths =>
      length columnWidths = length widths
      /\ forall (i : nat) w,
           widths !! i = Some w ->
           (w = -1 /\ columnWidths !! i = Some (-1))
           \/ (w ≠ -1
               /\ exists title,
                    titles !! (k + i)%nat = Some title
                    /\ columnWidths !! i
                       = Some (Z.max w (renderTitleWidth E title)))
  end.
Proof.
  revert k. induction widths as [|w widths IH]; intros k; simpl.
  { split; [done|]. intros i w Hi. done. }
  specialize (IH (S k)).
  destruct (decide (w = -1)) as [->|Hw]; simpl.
  - destruct (titleWidths E titles widths (S k)) as [others|]; simpl.
    + destruct IH as [Hlen IH]. split; [by rewrite Hlen|].
      intros [|i] w' Hi; simpl in *; simplify_eq; [by left|].
      replace (k + S i)%nat with (S k + i)%nat by lia. by apply IH.
    + destruct IH as (i & w' & Hi & Hw' & Hlen).
      exists (S i), w'. repeat split; try done; lia.
  - destruct (titles !! k) as [title|] eqn:Ht; simpl.
    + destruct (titleWidths E titles widths (S k)) as [others|]; simpl.
      * destruct IH as [Hlen IH]. split; [by rewrite Hlen|].
        intros [|i] w' Hi; simpl in *; simplify_eq.
        { right. split; [done|]. exists title. by rewrite Nat.add_0_r. }
        replace (k + S i)%nat with (S k + i)%nat by lia. by apply IH.
      * destruct IH as (i & w' & Hi & Hw' & Hlen).
        exists (S i), w'. repeat split; try done; lia.
    + exists 0%nat, w. apply lookup_ge_None in Ht.
      repeat split; try done; lia.
Qed.

(** X23.  [setColumnTitleInfo] reads the title of every column whose width
    is not the automatic width [-1]: it is undefined exactly when such a
    column has no title.  Otherwise it stores one width per requested width:
    [-1] as it is, any other one raised to the width its title needs. *)
Theorem setColumnTitleInfo_widths (E : Env) (titles : list string)
    (widths : list Z) (height : Z) (s : State) :
  (setColumnTitleInfo E titles widths height s = None
   <-> exists (i : nat) w,
         widths !! i = Some w /\ w ≠ -1 /\ (length titles <= i)%nat)
  /\ forall s',
       setColumnTitleInfo E titles widths height s = Some s' ->
       columnTitles s' = titles /\ titleHeight s' = height
       /\ length (columnWidths s') = length widths
       /\ forall (i : nat) w,
            widths !! i = Some w ->
            (w = -1 /\ columnWidths s' !! i = Some (-1))
            \/ (w ≠ -1
                /\ exists title,
                     titles !! i = Some title
                     /\ columnWidths s' !! i
                        = Some (Z.max w (renderTitleWidth E title))).
Proof.
  unfold setColumnTitleInfo. simpl.
  pose proof (titleWidths_spec E titles widths 0) as Hspec.
  destruct (titleWidths E titles widths 0) as [columnWidths|]; simpl.
  - split.
    + split; [done|]. intros (i & w & Hi & Hw & Hlen).
      destruct Hspec as [_ Hspec].
      destruct (Hspec i w Hi) as [[? _]|(_ & title & Ht & _)]; [done|].
      apply lookup_lt_Some in Ht. simpl in Ht. lia.
    + intros s' [= <-]. simpl. destruct Hspec as [Hlen Hspec].
      repeat split; try done.
  - split; [|done]. split; [|done]. intros _.
    destruct Hspec as (i & w & ? & ? & ?). exists i, w. done.
Qed.

(** ** Shift with the arrow and page keys *)






(** ** Painting the page indicator *)




(** ** The properties on the sample views *)


Lemma titledView_reached :
  (s ← setColumnTitleInfo refEnv ["Name"] [-1] 30 (DSimpleListView_new 200 130);
   s ← setColumnHideFlags [true] 0 s;
   Some (setSearchAlgorithm (Some matchAll) (setRowHeight 20 s)))
  = Some titledView.
Proof. reflexivity. Qed.

Lemma twoOfFive_reached :
  (s ← addItems refEnv [1; 2; 3; 4; 5]%nat
         (setRowHeight 20 (DSimpleListView_new 200 100));
   s ← mousePressEvent refEnv LeftButton NoModifier 10 30 s;
   mousePressEvent refEnv LeftButton ShiftModifier 10 50 s)
  = Some twoOfFive.
Proof. reflexivity. Qed.


Lemma page_cycle_witness :
  PageIndicator.currentPage (PageIndicator.nextPage PageIndicator.new) = 2
  /\ PageIndicator.currentPage
       (PageIndicator.nextPage (PageIndicator.nextPage PageIndicator.new)) = 0
  /\ PageIndicator.previousPage (PageIndicator.nextPage PageIndicator.new)
     = PageIndicator.new.
Proof.
  split; [reflexivity|]. split; [reflexivity|].
  apply (page_cycle PageIndicator.new). simpl. lia.
Defined.

Lemma search_result_witness :
  renderItems (search "a" (sortedView [2; 1]%nat [1; 2]%nat false))
    `sublist_of` [2; 1]%nat
  /\ forall item,
       item ∈ renderItems (search "a" (sortedView [2; 1]%nat [1; 2]%nat false))
       <-> item ∈ [2; 1]%nat /\ matchAll item "a" = true.
Proof.
  apply (search_result (sortedView [2; 1]%nat [1; 2]%nat false) matchAll "a").
  - reflexivity.
  - done.
Defined.

Lemma navigation_without_rows_witness :
  selectionItems (clearItems threeRows) = [2%nat]
  /\ selectNextItemWithOffset refEnv 1 (clearItems threeRows) = None
  /\ selectPrevItemWithOffset refEnv 1 (clearItems threeRows)
     = Some (set_oldRenderOffset 0 (clearItems threeRows)).
Proof.
  split; [reflexivity|].
  apply (navigation_without_rows refEnv 1 (clearItems threeRows)).
  - reflexivity.
  - done.
Defined.




Lemma single_select_kept_witness :
  exists s',
    keyPressEvent refEnv Key_Down NoModifier singleSelectRows = Some s'
    /\ selectionItems s' = [3%nat]
    /\ isSingleSelect s' = true /\ (length (selectionItems s') <= 1)%nat.
Proof.
  eexists. split; [vm_compute; reflexivity|]. split; [reflexivity|].
  apply (single_select_kept refEnv Key_Down LeftButton NoModifier 0 0
           singleSelectRows).
  - reflexivity.
  - simpl. lia.
  - left. vm_compute. reflexivity.
Defined.

Lemma click_selects_row_witness :
  (forall (j : nat) (item : ItemPtr),
     Z.of_nat j * 20 <= 0 + 50 - 0 < (Z.of_nat j + 1) * 20 ->
     [1; 2; 3]%nat !! j = Some item ->
     exists s',
       mousePressEvent refEnv LeftButton NoModifier 10 50 threeRows = Some s'
       /\ selectionItems s' = [item]
       /\ renderItems s' = [1; 2; 3]%nat
       /\ renderOffset s' = 0)
  /\ (3 * 20 <= 0 + 50 - 0 ->
      exists s',
        mousePressEvent refEnv RightButton NoModifier 10 50 threeRows = Some s'
        /\ selectionItems s' = []
        /\ renderItems s' = [1; 2; 3]%nat
        /\ renderOffset s' = 0).
Proof.
  apply (click_selects_row refEnv RightButton NoModifier 10 50 threeRows);
    simpl; lia.
Defined.

Lemma shift_click_selects_range_witness :
  exists s',
    mousePressEvent refEnv LeftButton ShiftModifier 10 50 threeRows = Some s'
    /\ selectionItems s' = [2; 3]%nat
    /\ lastSelectItem s' = 2%nat
    /\ renderItems s' = [1; 2; 3]%nat.
Proof.
  apply (shift_click_selects_range refEnv 10 50 2 threeRows).
  - simpl. lia.
  - simpl. lia.
  - simpl. lia.
  - reflexivity.
  - done.
  - simpl. lia.
  - simpl. lia.
Defined.

Lemma ctrl_click_toggles_witness :
  exists s1,
    mousePressEvent refEnv LeftButton ControlModifier 10 10 threeRows = Some s1
    /\ renderItems s1 = [1; 2; 3]%nat /\ renderOffset s1 = 0
    /\ (1%nat ∈ [2%nat] -> selectionItems s1 = removeOne 1%nat [2%nat])
    /\ (1%nat ∉ [2%nat] ->
        selectionItems s1 = [2; 1]%nat
        /\ exists s2,
             mousePressEvent refEnv LeftButton ControlModifier 10 10 s1 = Some s2
             /\ selectionItems s2 = [2%nat]).
Proof.
  apply (ctrl_click_toggles refEnv 10 10 0 1%nat threeRows).
  - simpl. lia.
  - simpl. lia.
  - simpl. lia.
  - reflexivity.
  - simpl. lia.
  - reflexivity.
Defined.

Lemma shift_home_end_select_from_anchor_witness :
  selectionItems (shiftSelectToEnd refEnv threeRows) = [2; 3]%nat
  /\ renderOffset (shiftSelectToEnd refEnv threeRows) = 0
  /\ lastSelectItem (shiftSelectToEnd refEnv threeRows) = 2%nat
  /\ selectionItems (shiftSelectToHome refEnv threeRows) = [1; 2]%nat
  /\ renderOffset (shiftSelectToHome refEnv threeRows) = 0
  /\ lastSelectItem (shiftSelectToHome refEnv threeRows) = 2%nat.
Proof.
  apply (shift_home_end_select_from_anchor refEnv threeRows).
  - reflexivity.
  - done.
Defined.

Lemma sorting_registered_twice_witness :
  length (sortingOrderes
            (setColumnSortingAlgorithms (Some [byAddress]) 0 true
               (setColumnSortingAlgorithms (Some [byAddress]) 0 false titledView)))
  = 2%nat
  /\ ¬ sortingReady
         (setColumnSortingAlgorithms (Some [byAddress]) 0 true
            (setColumnSortingAlgorithms (Some [byAddress]) 0 false titledView))
         [byAddress]
  /\ sortItemsByColumn refEnv 0 true
       (setColumnSortingAlgorithms (Some [byAddress]) 0 true
          (setColumnSortingAlgorithms (Some [byAddress]) 0 false titledView))
     = Some (setColumnSortingAlgorithms (Some [byAddress]) 0 true
               (setColumnSortingAlgorithms (Some [byAddress]) 0 false titledView))
  /\ pressTitleArea refEnv LeftButton 10
       (setColumnSortingAlgorithms (Some [byAddress]) 0 true
          (setColumnSortingAlgorithms (Some [byAddress]) 0 false titledView))
     = Some (setColumnSortingAlgorithms (Some [byAddress]) 0 true
               (setColumnSortingAlgorithms (Some [byAddress]) 0 false titledView)).
Proof.
  apply (sorting_registered_twice refEnv [byAddress] [byAddress] 0 0 0 10
           false true true titledView).
  - repeat split; simpl; lia.
  - done.
Defined.


Lemma rendered_rows_are_items_witness :
  (forall items s',
     addItems refEnv items (sortedView [2; 1]%nat [1; 2]%nat false) = Some s' ->
     renderItems s' ⊆+ listItems s')
  /\ (forall item,
        renderItems (removeItem item (sortedView [2; 1]%nat [1; 2]%nat false))
        ⊆+ listItems (removeItem item (sortedView [2; 1]%nat [1; 2]%nat false)))
  /\ renderItems (clearItems (sortedView [2; 1]%nat [1; 2]%nat false))
     ⊆+ listItems (clearItems (sortedView [2; 1]%nat [1; 2]%nat false))
  /\ (forall items s',
        refreshItems refEnv items (sortedView [2; 1]%nat [1; 2]%nat false)
        = Some s' ->
        renderItems s' ⊆+ listItems s')
  /\ (forall content,
        renderItems (search content (sortedView [2; 1]%nat [1; 2]%nat false))
        ⊆+ listItems (search content (sortedView [2; 1]%nat [1; 2]%nat false)))
  /\ (forall button modifiers mx my s',
        mousePressEvent refEnv button modifiers mx my
          (sortedView [2; 1]%nat [1; 2]%nat false) = Some s' ->
        renderItems s' ⊆+ listItems s').
Proof.
  apply (rendered_rows_are_items refEnv (sortedView [2; 1]%nat [1; 2]%nat false)).
  - apply refEnv_spec.
  - intros algs algorithm descendingSort [= <-] Hin.
    apply list_elem_of_singleton in Hin as ->. apply byAddress_total.
  - simpl. apply Permutation_submseteq, Permutation_swap.
Defined.

Lemma addItems_keeps_sort_order_witness :
  exists s',
    addItems refEnv [5; 3]%nat (sortedView [2; 1]%nat [1; 2]%nat false) = Some s'
    /\ listItems s' = [2; 1; 5; 3]%nat
    /\ renderItems s' ≡ₚ [1; 2; 5; 3]%nat
    /\ StronglySorted (notAfter (fun a b => byAddress a b false)) (renderItems s').
Proof.
  apply (addItems_keeps_sort_order refEnv (sortedView [2; 1]%nat [1; 2]%nat false)
           [byAddress] byAddress 0 [5; 3]%nat).
  - apply refEnv_spec.
  - reflexivity.
  - repeat split. simpl. lia.
  - reflexivity.
  - reflexivity.
  - apply byAddress_total.
Defined.


Lemma getRenderWidths_fill_the_view_witness :
  length (getRenderWidths (sortedView [2; 1]%nat [1; 2]%nat false)) = 1%nat
  /\ foldl Z.add 0 (getRenderWidths (sortedView [2; 1]%nat [1; 2]%nat false)) = 200
  /\ getRenderWidths (sortedView [2; 1]%nat [1; 2]%nat false) !! 0%nat
     = Some (200 - 0).
Proof.
  apply (getRenderWidths_fill_the_view (sortedView [2; 1]%nat [1; 2]%nat false) 0).
  - reflexivity.
  - reflexivity.
  - intros [|j] Hj Hl; [done|]. simpl in Hl. done.
Defined.

